(** * Signaling server (app.py): room registry, lifecycle handlers and relay

    A shallow embedding of the Socket.IO event handlers of [app.py] and the
    properties of the room registry they maintain.

    Modelling conventions.
    - A Python [dict] is an insertion-ordered association list ([Dict.t]):
      assignment to a present key updates the entry in place, assignment to
      a new key appends, [del] removes the entry.
    - The inbound payload [data] of the handlers below is a JSON object
      whose fields are strings, as the protocol types them; [data['k']]
      raises [KeyError] when the field is missing, [data.get('k')] gives
      [None].  The handlers do not validate their payload: what a
      join-room does when its userId is a JSON array or object (an
      unhashable value) is modelled apart, in
      [handle_join_room_unhashable_user].  Other non-string fields
      (numbers, booleans, null as roomId or userId) are outside the model,
      and the statements say so where it matters.
    - [request.sid] is an explicit argument of every handler.
    - The global [rooms] and the transport's room table (what [join_room] and
      [leave_room] of Flask-SocketIO act on) are threaded through the
      handlers as a [world]; every [emit] is recorded, in order, with its
      event name, its payload and its addressing. *)

From Stdlib Require Import List String Bool Arith Lia.
Import ListNotations.
Open Scope string_scope.
Open Scope list_scope.
Open Scope nat_scope.

(** ** Insertion-ordered dictionaries with string keys *)

Module Dict.

Section Ops.
Context {V : Type}.

Definition t := list (string * V).

(** [d.get(k)] *)
Fixpoint get (k : string) (d : t) : option V :=
  match d with
  | [] => None
  | (k', v) :: rest => if String.eqb k k' then Some v else get k rest
  end.

(** [k in d] *)
Definition mem (k : string) (d : t) : bool :=
  match get k d with Some _ => true | None => false end.

(** [d[k] = v] *)
Fixpoint set (k : string) (v : V) (d : t) : t :=
  match d with
  | [] => [(k, v)]
  | (k', v') :: rest =>
      if String.eqb k k' then (k', v) :: rest else (k', v') :: set k v rest
  end.

(** [del d[k]] *)
Definition del (k : string) (d : t) : t :=
  filter (fun e => negb (String.eqb k (fst e))) d.

Definition keys (d : t) : list string := map fst d.
Definition values (d : t) : list V := map snd d.
Definition items (d : t) : list (string * V) := d.
Definition len (d : t) : nat := List.length d.

(** [not d] *)
Definition is_empty (d : t) : bool :=
  match d with [] => true | _ :: _ => false end.
End Ops.

Arguments t : clear implicits.

End Dict.

(** ** Results of a handler: a value, or the [KeyError] of a missing key *)

Inductive result (A : Type) : Type :=
| Ok (a : A)
| KeyError (k : string).
Arguments Ok {A} a.
Arguments KeyError {A} k.

Definition bind {A B : Type} (r : result A) (f : A -> result B) : result B :=
  match r with
  | Ok a => f a
  | KeyError k => KeyError k
  end.

Notation "x <- r ;; k" := (bind r (fun x => k))
  (at level 61, r at next level, right associativity).

(** [d[k]] *)
Definition getitem {V : Type} (k : string) (d : Dict.t V) : result V :=
  match Dict.get k d with
  | Some v => Ok v
  | None => KeyError k
  end.

(** ** Data model *)

(** The value stored per user: [{'username': str, 'sid': str}]. *)
Record member : Type := Member { username : string; sid : string }.

(** [{ user_id: member }] *)
Definition room : Type := Dict.t member.

(** [{ room_id: { user_id: member } }], the global [rooms]. *)
Definition registry : Type := Dict.t room.

(** The transport's room table: room name to the connections in it. *)
Definition sio_table : Type := Dict.t (list string).

Record world : Type := World { rooms : registry; sio_rooms : sio_table }.

(** Outbound payloads. *)
#[warnings="-register-all"]
Inductive json : Type :=
| JNull
| JStr (s : string)
| JNum (n : nat)
| JArr (l : list json)
| JObj (o : list (string * json)).

(** How an [emit] is addressed: to one connection ([emit] without [room]
    goes to [request.sid]; [room=target_sid] goes to that connection), or
    to a transport room, optionally skipping one connection ([skip_sid]). *)
Inductive dest : Type :=
| ToSid (s : string)
| ToRoom (r : string) (skip : option string).

Record msg : Type := Msg { event : string; payload : json; to : dest }.

Definition emit (ev : string) (p : json) (d : dest) : msg := Msg ev p d.

(** The inbound payload of an event: a JSON object with string fields.
    The source reads the fields unvalidated; values of other JSON types
    are not in this type. *)
Definition data_t : Type := Dict.t string.

(** ** Transport rooms *)

Definition participants (r : string) (T : sio_table) : list string :=
  match Dict.get r T with
  | Some l => l
  | None => []
  end.

Definition sid_in (s : string) (l : list string) : bool :=
  existsb (String.eqb s) l.

Definition drop_sid (s : string) (l : list string) : list string :=
  filter (fun c => negb (String.eqb s c)) l.

(** [join_room(room_id)] for the connection [s]. *)
Definition join_room (s r : string) (T : sio_table) : sio_table :=
  let l := participants r T in
  if sid_in s l then T else Dict.set r (l ++ [s]) T.

(** [leave_room(room_id)] for the connection [s]. *)
Definition leave_room (s r : string) (T : sio_table) : sio_table :=
  match Dict.get r T with
  | Some l => Dict.set r (drop_sid s l) T
  | None => T
  end.

(** What the transport does once a connection is gone: it is taken out of
    every room. *)
Definition sio_disconnect (s : string) (T : sio_table) : sio_table :=
  map (fun e => (fst e, drop_sid s (snd e))) T.

(** The connections a message is delivered to, given the room table at the
    time of the [emit]. *)
Definition recipients (T : sio_table) (m : msg) : list string :=
  match to m with
  | ToSid s => [s]
  | ToRoom r None => participants r T
  | ToRoom r (Some s) => drop_sid s (participants r T)
  end.

(** ** Handlers *)

(** [handle_connect]: logs only. *)
Definition handle_connect (request_sid : string) (w : world)
  : result (world * list msg) :=
  Ok (w, []).

(** The inner loop of [handle_disconnect]:
    [for user_id in list(room.keys()): if room[user_id]['sid'] == sid]. *)
Fixpoint scan_users (s : string) (rm : room) (uids : list string)
  : option (string * member) :=
  match uids with
  | [] => None
  | user_id :: rest =>
      match Dict.get user_id rm with
      | Some info =>
          if String.eqb (sid info) s then Some (user_id, info)
          else scan_users s rm rest
      | None => scan_users s rm rest
      end
  end.

(** The outer loop: [for room_id in list(rooms.keys()): room = rooms[room_id]]. *)
Fixpoint scan_rooms (s : string) (rs : registry) (rids : list string)
  : option (string * room * string * member) :=
  match rids with
  | [] => None
  | room_id :: rest =>
      match Dict.get room_id rs with
      | Some rm =>
          match scan_users s rm (Dict.keys rm) with
          | Some (user_id, info) => Some (room_id, rm, user_id, info)
          | None => scan_rooms s rs rest
          end
      | None => scan_rooms s rs rest
      end
  end.

Definition user_left (room_id user_id uname : string) : msg :=
  emit "user-left"
       (JObj [("userId", JStr user_id); ("username", JStr uname)])
       (ToRoom room_id None).

Definition handle_disconnect (request_sid : string) (w : world)
  : result (world * list msg) :=
  match scan_rooms request_sid (rooms w) (Dict.keys (rooms w)) with
  | Some (room_id, rm, user_id, info) =>
      let uname := username info in
      (* del room[user_id]; room aliases rooms[room_id] *)
      let rm' := Dict.del user_id rm in
      let rooms1 := Dict.set room_id rm' (rooms w) in
      let out := [user_left room_id user_id uname] in
      (* if not room: del rooms[room_id] *)
      let rooms2 :=
        if Dict.is_empty rm' then Dict.del room_id rooms1 else rooms1 in
      Ok (World rooms2 (sio_rooms w), out)
  | None => Ok (w, [])
  end.

Definition MAX_ROOM_SIZE : nat := 6.

Definition room_full (request_sid : string) : msg :=
  emit "room-full"
       (JObj [("message", JStr "Room is full (max 6 users)")])
       (ToSid request_sid).

Definition user_entry (e : string * member) : json :=
  JObj [("userId", JStr (fst e)); ("username", JStr (username (snd e)))].

Definition existing_users_msg (request_sid : string) (before : room) : msg :=
  emit "existing-users"
       (JObj [("users", JArr (map user_entry (Dict.items before)))])
       (ToSid request_sid).

Definition user_joined (request_sid room_id user_id uname : string) : msg :=
  emit "user-joined"
       (JObj [("userId", JStr user_id); ("username", JStr uname)])
       (ToRoom room_id (Some request_sid)).

Definition handle_join_room (data : data_t) (request_sid : string) (w : world)
  : result (world * list msg) :=
  room_id <- getitem "roomId" data ;;
  user_id <- getitem "userId" data ;;
  uname <- getitem "username" data ;;
  (* if room_id not in rooms: rooms[room_id] = {} *)
  let rooms1 :=
    if Dict.mem room_id (rooms w) then rooms w
    else Dict.set room_id [] (rooms w) in
  rm <- getitem room_id rooms1 ;;
  if MAX_ROOM_SIZE <=? Dict.len rm then
    Ok (World rooms1 (sio_rooms w), [room_full request_sid])
  else
    let existing := existing_users_msg request_sid rm in
    let rooms2 :=
      Dict.set room_id (Dict.set user_id (Member uname request_sid) rm) rooms1 in
    let T := join_room request_sid room_id (sio_rooms w) in
    Ok (World rooms2 T,
        [existing; user_joined request_sid room_id user_id uname]).

Definition handle_leave_room (data : data_t) (request_sid : string) (w : world)
  : result (world * list msg) :=
  room_id <- getitem "roomId" data ;;
  user_id <- getitem "userId" data ;;
  match Dict.get room_id (rooms w) with
  | Some rm =>
      match Dict.get user_id rm with
      | Some info =>
          let uname := username info in
          let rm' := Dict.del user_id rm in
          let rooms1 := Dict.set room_id rm' (rooms w) in
          let T := leave_room request_sid room_id (sio_rooms w) in
          let out := [user_left room_id user_id uname] in
          let rooms2 :=
            if Dict.is_empty rm' then Dict.del room_id rooms1 else rooms1 in
          Ok (World rooms2 T, out)
      | None => Ok (w, [])
      end
  | None => Ok (w, [])
  end.

(** The lookup shared by the three relay handlers:
    [room_id in rooms and target_user_id in rooms[room_id]], then
    [rooms[room_id][target_user_id]['sid']]. *)
Definition target_sid_of (room_id target_user_id : string) (rs : registry)
  : option string :=
  match Dict.get room_id rs with
  | Some rm =>
      match Dict.get target_user_id rm with
      | Some info => Some (sid info)
      | None => None
      end
  | None => None
  end.

Definition handle_offer (data : data_t) (request_sid : string) (w : world)
  : result (world * list msg) :=
  room_id <- getitem "roomId" data ;;
  target_user_id <- getitem "targetUserId" data ;;
  match target_sid_of room_id target_user_id (rooms w) with
  | Some target_sid =>
      offer <- getitem "offer" data ;;
      from_user_id <- getitem "fromUserId" data ;;
      from_username <- getitem "fromUsername" data ;;
      Ok (w, [emit "offer"
                   (JObj [("offer", JStr offer);
                          ("fromUserId", JStr from_user_id);
                          ("fromUsername", JStr from_username)])
                   (ToSid target_sid)])
  | None => Ok (w, [])
  end.

Definition handle_answer (data : data_t) (request_sid : string) (w : world)
  : result (world * list msg) :=
  room_id <- getitem "roomId" data ;;
  target_user_id <- getitem "targetUserId" data ;;
  match target_sid_of room_id target_user_id (rooms w) with
  | Some target_sid =>
      answer <- getitem "answer" data ;;
      from_user_id <- getitem "fromUserId" data ;;
      Ok (w, [emit "answer"
                   (JObj [("answer", JStr answer);
                          ("fromUserId", JStr from_user_id)])
                   (ToSid target_sid)])
  | None => Ok (w, [])
  end.

Definition handle_ice_candidate (data : data_t) (request_sid : string)
  (w : world) : result (world * list msg) :=
  room_id <- getitem "roomId" data ;;
  target_user_id <- getitem "targetUserId" data ;;
  match target_sid_of room_id target_user_id (rooms w) with
  | Some target_sid =>
      candidate <- getitem "candidate" data ;;
      from_user_id <- getitem "fromUserId" data ;;
      Ok (w, [emit "ice-candidate"
                   (JObj [("candidate", JStr candidate);
                          ("fromUserId", JStr from_user_id)])
                   (ToSid target_sid)])
  | None => Ok (w, [])
  end.

(** [room_id] as it is echoed in the reply: a string, or [None]. *)
Definition json_of_room_id (o : option string) : json :=
  match o with
  | Some s => JStr s
  | None => JNull
  end.

Definition room_info (request_sid : string) (o : option string) (count : nat)
  (users : list string) : msg :=
  emit "room-info"
       (JObj [("roomId", json_of_room_id o);
              ("userCount", JNum count);
              ("users", JArr (map JStr users))])
       (ToSid request_sid).

(** Python truthiness of [data.get('roomId')] when it is a string or
    [None]: only the empty string and [None] are falsy.  (Falsy values of
    other JSON types are not in [data_t].) *)
Definition truthy (o : option string) : bool :=
  match o with
  | Some s => negb (String.eqb s "")
  | None => false
  end.

Definition handle_get_room_info (data : data_t) (request_sid : string)
  (w : world) : result (world * list msg) :=
  let room_id := Dict.get "roomId" data in
  match room_id with
  | Some rid =>
      if truthy room_id && Dict.mem rid (rooms w) then
        rm <- getitem rid (rooms w) ;;
        Ok (w, [room_info request_sid room_id (Dict.len rm)
                          (map username (Dict.values rm))])
      else Ok (w, [room_info request_sid room_id 0 []])
  | None => Ok (w, [room_info request_sid room_id 0 []])
  end.

(** ** The server as a transition system *)

Inductive inbound : Type :=
| Connect
| Disconnect
| JoinRoom (data : data_t)
| LeaveRoom (data : data_t)
| Offer (data : data_t)
| Answer (data : data_t)
| IceCandidate (data : data_t)
| GetRoomInfo (data : data_t).

Definition dispatch (ev : inbound) : string -> world -> result (world * list msg) :=
  match ev with
  | Connect => handle_connect
  | Disconnect => handle_disconnect
  | JoinRoom data => handle_join_room data
  | LeaveRoom data => handle_leave_room data
  | Offer data => handle_offer data
  | Answer data => handle_answer data
  | IceCandidate data => handle_ice_candidate data
  | GetRoomInfo data => handle_get_room_info data
  end.

(** One inbound event of connection [s], its payload a [data_t].  On such
    payloads the only exception is the [KeyError] of a missing field, and
    every field is read before the first mutation: a handler that raises
    leaves the world as it was and emits nothing.  (A join-room with an
    unhashable userId raises later, see
    [handle_join_room_unhashable_user]; it is not an [inbound].)  After
    the disconnect handler the transport forgets the connection. *)
Definition step (e : string * inbound) (w : world) : world * list msg :=
  let '(s, ev) := e in
  match dispatch ev s w with
  | Ok (w', out) =>
      match ev with
      | Disconnect => (World (rooms w') (sio_disconnect s (sio_rooms w')), out)
      | _ => (w', out)
      end
  | KeyError _ => (w, [])
  end.

Fixpoint run (evs : list (string * inbound)) (w : world) : world :=
  match evs with
  | [] => w
  | e :: rest => run rest (fst (step e w))
  end.

(** [rooms = {}] at process start. *)
Definition init : world := World [] [].

(** Payload builders for the examples below. *)
Definition join_data (room_id user_id uname : string) : data_t :=
  [("roomId", room_id); ("userId", user_id); ("username", uname)].

Definition leave_data (room_id user_id : string) : data_t :=
  [("roomId", room_id); ("userId", user_id)].

(** ** A join-room whose userId cannot be a dict key *)

(** JSON values Python cannot hash: arrays ([list]) and objects ([dict]). *)
Inductive unhashable : Type :=
| UList (l : list json)
| UDict (o : list (string * json)).

(** How a handler ends: it returns, or it raises [TypeError]; either way
    with the world it leaves behind and the messages emitted so far. *)
Inductive outcome : Type :=
| Returned (w : world) (out : list msg)
| RaisedTypeError (w : world) (out : list msg).

Definition world_after (o : outcome) : world :=
  match o with
  | Returned w _ => w
  | RaisedTypeError w _ => w
  end.

(** [handle_join_room] on a payload whose roomId and username are strings
    and whose userId is an array or an object.  The three fields are read,
    the room is created when absent, the capacity is checked (a full room
    answers room-full and returns) and the snapshot is taken, all as for a
    string userId; then [rooms[room_id][user_id] = ...] raises [TypeError]
    (unhashable type), before [join_room] and before any [emit].  Nothing
    undoes the creation of the room. *)
Definition handle_join_room_unhashable_user (room_id : string)
  (user_id : unhashable) (uname : string) (request_sid : string) (w : world)
  : outcome :=
  (* if room_id not in rooms: rooms[room_id] = {} *)
  let rooms1 :=
    if Dict.mem room_id (rooms w) then rooms w
    else Dict.set room_id [] (rooms w) in
  match Dict.get room_id rooms1 with
  | Some rm =>
      if MAX_ROOM_SIZE <=? Dict.len rm then
        Returned (World rooms1 (sio_rooms w)) [room_full request_sid]
      else
        (* rooms[room_id][user_id] = {...}: TypeError *)
        RaisedTypeError (World rooms1 (sio_rooms w)) []
  | None =>
      (* not reached: [room_id] is a key of [rooms1] *)
      RaisedTypeError (World rooms1 (sio_rooms w)) []
  end.

(** ** Derived notions used in the statements *)

(** The members of a room as the join handler sees them before it inserts:
    those of [rooms[room_id]], none when the room is yet to be created. *)
Definition room_before (room_id : string) (rs : registry) : room :=
  match Dict.get room_id rs with
  | Some rm => rm
  | None => []
  end.

(** The Registry once [user_id] has been deleted from [rm = rooms[room_id]],
    as both [handle_leave_room] and [handle_disconnect] compute it. *)
Definition after_removal (room_id user_id : string) (rm : room)
  (rs : registry) : registry :=
  let rm' := Dict.del user_id rm in
  let rooms1 := Dict.set room_id rm' rs in
  if Dict.is_empty rm' then Dict.del room_id rooms1 else rooms1.

(** Every room present in the Registry satisfies [P]. *)
Definition every_room (P : room -> Prop) (rs : registry) : Prop :=
  forall room_id rm, Dict.get room_id rs = Some rm -> P rm.

(** [|members| <= MAX_ROOM_SIZE] for every room. *)
Definition bounded (rs : registry) : Prop :=
  every_room (fun rm => Dict.len rm <= MAX_ROOM_SIZE) rs.

(** No room with zero members is present. *)
Definition no_empty_rooms (rs : registry) : Prop :=
  every_room (fun rm => rm <> []) rs.

(** ** Worlds used in the examples *)

(** Room "R" holding six members, each on its own connection. *)
Definition full_room : room :=
  [("u1", Member "ann" "c1"); ("u2", Member "bob" "c2");
   ("u3", Member "cat" "c3"); ("u4", Member "dan" "c4");
   ("u5", Member "eve" "c5"); ("u6", Member "fay" "c6")].

Definition full_world : world :=
  World [("R", full_room)] [("R", ["c1"; "c2"; "c3"; "c4"; "c5"; "c6"])].

(** Room "R" with two members, each on its own connection. *)
Definition pair_room : room :=
  [("u1", Member "ann" "c1"); ("u2", Member "bob" "c2")].

Definition pair_world : world :=
  World [("R", pair_room)] [("R", ["c1"; "c2"])].

(** A room keyed by the empty string, with two members. *)
Definition unnamed_room_world : world :=
  World [("", [("u1", Member "ann" "c1"); ("u2", Member "bob" "c2")])]
        [("", ["c1"; "c2"])].

(** ** Memberships *)

(** [rooms[room_id][user_id]] when both keys are present. *)
Definition member_at (room_id user_id : string) (rs : registry)
  : option member :=
  match Dict.get room_id rs with
  | Some rm => Dict.get user_id rm
  | None => None
  end.

(** The connection [s] is stored in no entry of the Registry. *)
Definition no_membership (s : string) (rs : registry) : Prop :=
  forall room_id user_id info,
    member_at room_id user_id rs = Some info -> sid info <> s.

(** The connection [s] is stored in at most one entry of the Registry. *)
Definition at_most_one_membership (s : string) (rs : registry) : Prop :=
  forall r1 u1 i1 r2 u2 i2,
    member_at r1 u1 rs = Some i1 -> sid i1 = s ->
    member_at r2 u2 rs = Some i2 -> sid i2 = s ->
    r1 = r2 /\ u1 = u2.

(** No key occurs twice: the association lists are genuine dicts. *)
Definition registry_wf (rs : registry) : Prop :=
  NoDup (Dict.keys rs) /\
  forall room_id rm, Dict.get room_id rs = Some rm -> NoDup (Dict.keys rm).

(** Connection "k" registered in two rooms, under two userIds. *)
Definition two_room_world : world :=
  World [("R1", [("a", Member "al" "k"); ("x", Member "xi" "cx")]);
         ("R2", [("b", Member "al" "k")])]
        [("R1", ["k"; "cx"]); ("R2", ["k"])].

(** Every registered member's connection is in the transport room of the
    member's room. *)
Definition synced (w : world) : Prop :=
  forall room_id user_id info,
    member_at room_id user_id (rooms w) = Some info ->
    In (sid info) (participants room_id (sio_rooms w)).

(** The events that take a member out: leave-room and disconnect. *)
Definition is_departure (ev : inbound) : bool :=
  match ev with
  | LeaveRoom _ | Disconnect => true
  | _ => false
  end.

(** ** Dictionary facts *)

Module DictFacts.

Section Facts.
Context {V : Type}.
Implicit Types (d : Dict.t V) (k : string) (v : V).

Lemma get_set k' k v d :
  Dict.get k' (Dict.set k v d) =
  if String.eqb k' k then Some v else Dict.get k' d.
Proof.
  induction d as [|[k0 v0] d IH]; simpl.
  - destruct (String.eqb_spec k' k); reflexivity.
  - destruct (String.eqb_spec k k0) as [->|Hk]; simpl.
    + destruct (String.eqb_spec k' k0); reflexivity.
    + destruct (String.eqb_spec k' k0) as [->|Hk'].
      * destruct (String.eqb_spec k0 k); congruence.
      * exact IH.
Qed.

Lemma get_del k' k d :
  Dict.get k' (Dict.del k d) =
  if String.eqb k' k then None else Dict.get k' d.
Proof.
  induction d as [|[k0 v0] d IH]; simpl.
  - destruct (String.eqb k' k); reflexivity.
  - destruct (String.eqb_spec k k0) as [->|Hk]; simpl.
    + rewrite IH. destruct (String.eqb_spec k' k0); reflexivity.
    + destruct (String.eqb_spec k' k0) as [->|Hk'].
      * destruct (String.eqb_spec k0 k); congruence.
      * exact IH.
Qed.

Lemma set_get_id k v d : Dict.get k d = Some v -> Dict.set k v d = d.
Proof.
  induction d as [|[k0 v0] d IH]; simpl; [discriminate|].
  destruct (String.eqb_spec k k0) as [->|Hk]; intros H.
  - congruence.
  - rewrite (IH H). reflexivity.
Qed.

Lemma set_set k v v' d : Dict.set k v (Dict.set k v' d) = Dict.set k v d.
Proof.
  induction d as [|[k0 v0] d IH]; simpl.
  - rewrite String.eqb_refl. reflexivity.
  - destruct (String.eqb_spec k k0) as [->|Hk]; simpl.
    + rewrite String.eqb_refl. reflexivity.
    + destruct (String.eqb_spec k k0); [contradiction|]. rewrite IH. reflexivity.
Qed.

Lemma set_absent k v d : Dict.get k d = None -> Dict.set k v d = d ++ [(k, v)].
Proof.
  induction d as [|[k0 v0] d IH]; simpl; [reflexivity|].
  destruct (String.eqb k k0); [discriminate|].
  intros H. rewrite (IH H). reflexivity.
Qed.

Lemma del_absent k d : Dict.get k d = None -> Dict.del k d = d.
Proof.
  induction d as [|[k0 v0] d IH]; simpl; [reflexivity|].
  destruct (String.eqb k k0); simpl; [discriminate|].
  intros H. rewrite (IH H). reflexivity.
Qed.

Lemma del_appended k v d :
  Dict.get k d = None -> Dict.del k (d ++ [(k, v)]) = d.
Proof.
  intros H. unfold Dict.del. rewrite filter_app. simpl.
  rewrite String.eqb_refl. simpl. rewrite app_nil_r.
  apply del_absent, H.
Qed.

Lemma len_set_present k v v' d :
  Dict.get k d = Some v' -> Dict.len (Dict.set k v d) = Dict.len d.
Proof.
  unfold Dict.len.
  induction d as [|[k0 v0] d IH]; simpl; [discriminate|].
  destruct (String.eqb k k0); simpl; [reflexivity|].
  intros H. rewrite (IH H). reflexivity.
Qed.

Lemma len_set_absent k v d :
  Dict.get k d = None -> Dict.len (Dict.set k v d) = S (Dict.len d).
Proof.
  intros H. rewrite (set_absent _ _ _ H). unfold Dict.len.
  rewrite length_app. simpl. lia.
Qed.

Lemma len_set_le k v d : Dict.len (Dict.set k v d) <= S (Dict.len d).
Proof.
  destruct (Dict.get k d) eqn:E.
  - rewrite (len_set_present _ _ _ _ E). lia.
  - rewrite (len_set_absent _ _ _ E). lia.
Qed.

Lemma len_del_le k d : Dict.len (Dict.del k d) <= Dict.len d.
Proof. unfold Dict.len, Dict.del. apply filter_length_le. Qed.

Lemma set_not_nil k v d : Dict.set k v d <> [].
Proof.
  destruct d as [|[k0 v0] d]; simpl; [discriminate|].
  destruct (String.eqb k k0); discriminate.
Qed.

Lemma is_empty_nil d : Dict.is_empty d = true <-> d = [].
Proof. destruct d; simpl; split; congruence. Qed.

Lemma get_in_keys k v d : Dict.get k d = Some v -> In k (Dict.keys d).
Proof.
  induction d as [|[k0 v0] d IH]; simpl; [discriminate|].
  destruct (String.eqb_spec k k0) as [->|Hk]; auto.
Qed.

Lemma in_keys_get k d : In k (Dict.keys d) -> exists v, Dict.get k d = Some v.
Proof.
  induction d as [|[k0 v0] d IH]; simpl; [tauto|].
  destruct (String.eqb_spec k k0) as [->|Hk]; [eauto|].
  intros [E|H]; [congruence|auto].
Qed.
End Facts.

End DictFacts.

(** ** Equations of the handlers *)

Import DictFacts.

Lemma getitem_ok {V : Type} (k : string) (d : Dict.t V) (v : V) :
  getitem k d = Ok v <-> Dict.get k d = Some v.
Proof.
  unfold getitem. destruct (Dict.get k d); split; intros H;
    try discriminate; inversion H; reflexivity.
Qed.

Lemma world_eta (w : world) : World (rooms w) (sio_rooms w) = w.
Proof. destruct w; reflexivity. Qed.

Lemma handle_join_room_eq data s w room_id user_id uname :
  getitem "roomId" data = Ok room_id ->
  getitem "userId" data = Ok user_id ->
  getitem "username" data = Ok uname ->
  handle_join_room data s w =
  let rm := room_before room_id (rooms w) in
  if MAX_ROOM_SIZE <=? Dict.len rm then Ok (w, [room_full s])
  else Ok (World (Dict.set room_id
                    (Dict.set user_id (Member uname s) rm) (rooms w))
                 (join_room s room_id (sio_rooms w)),
           [existing_users_msg s rm; user_joined s room_id user_id uname]).
Proof.
  intros Hr Hu Hn. unfold handle_join_room.
  rewrite Hr, Hu, Hn. cbn [bind].
  unfold Dict.mem, room_before.
  destruct (Dict.get room_id (rooms w)) as [rm|] eqn:E.
  - apply getitem_ok in E. cbv beta iota zeta. rewrite E. cbn [bind].
    destruct (MAX_ROOM_SIZE <=? Dict.len rm); [rewrite world_eta|]; reflexivity.
  - cbv beta iota zeta. unfold getitem at 1.
    rewrite get_set, String.eqb_refl. cbn [bind]. simpl.
    rewrite set_set. reflexivity.
Qed.

Lemma handle_join_room_fields data s w x :
  handle_join_room data s w = Ok x ->
  exists room_id user_id uname,
    getitem "roomId" data = Ok room_id /\
    getitem "userId" data = Ok user_id /\
    getitem "username" data = Ok uname.
Proof.
  unfold handle_join_room. intros H.
  destruct (getitem "roomId" data) as [room_id|]; [|discriminate].
  destruct (getitem "userId" data) as [user_id|]; [|discriminate].
  destruct (getitem "username" data) as [uname|]; [|discriminate].
  exists room_id, user_id, uname. auto.
Qed.

Lemma handle_leave_room_eq data s w room_id user_id :
  getitem "roomId" data = Ok room_id ->
  getitem "userId" data = Ok user_id ->
  handle_leave_room data s w =
  match Dict.get room_id (rooms w) with
  | Some rm =>
      match Dict.get user_id rm with
      | Some info =>
          Ok (World (after_removal room_id user_id rm (rooms w))
                    (leave_room s room_id (sio_rooms w)),
              [user_left room_id user_id (username info)])
      | None => Ok (w, [])
      end
  | None => Ok (w, [])
  end.
Proof.
  intros Hr Hu. unfold handle_leave_room. rewrite Hr, Hu. reflexivity.
Qed.

Lemma handle_leave_room_fields data s w x :
  handle_leave_room data s w = Ok x ->
  exists room_id user_id,
    getitem "roomId" data = Ok room_id /\ getitem "userId" data = Ok user_id.
Proof.
  unfold handle_leave_room. intros H.
  destruct (getitem "roomId" data) as [room_id|]; [|discriminate].
  destruct (getitem "userId" data) as [user_id|]; [|discriminate].
  exists room_id, user_id. auto.
Qed.

Lemma handle_disconnect_eq s w :
  handle_disconnect s w =
  match scan_rooms s (rooms w) (Dict.keys (rooms w)) with
  | Some (room_id, rm, user_id, info) =>
      Ok (World (after_removal room_id user_id rm (rooms w)) (sio_rooms w),
          [user_left room_id user_id (username info)])
  | None => Ok (w, [])
  end.
Proof.
  unfold handle_disconnect.
  destruct (scan_rooms s (rooms w) (Dict.keys (rooms w)))
    as [[[[room_id rm] user_id] info]|]; reflexivity.
Qed.

(** What the scan of [handle_disconnect] returns is an entry of the
    Registry held by the connection. *)
Lemma scan_users_sound s rm uids user_id info :
  scan_users s rm uids = Some (user_id, info) ->
  Dict.get user_id rm = Some info /\ sid info = s.
Proof.
  induction uids as [|u uids IH]; simpl; [discriminate|].
  destruct (Dict.get u rm) as [i|] eqn:E; [|exact IH].
  destruct (String.eqb_spec (sid i) s) as [Hs|Hs]; [|exact IH].
  intros H. inversion H; subst. auto.
Qed.

Lemma scan_rooms_sound s rs rids room_id rm user_id info :
  scan_rooms s rs rids = Some (room_id, rm, user_id, info) ->
  Dict.get room_id rs = Some rm /\
  Dict.get user_id rm = Some info /\ sid info = s.
Proof.
  induction rids as [|r rids IH]; simpl; [discriminate|].
  destruct (Dict.get r rs) as [rm0|] eqn:E; [|exact IH].
  destruct (scan_users s rm0 (Dict.keys rm0)) as [[u i]|] eqn:Eu; [|exact IH].
  intros H. inversion H; subst.
  destruct (scan_users_sound _ _ _ _ _ Eu). auto.
Qed.

(** The relay and query handlers never touch the world. *)
Lemma handle_offer_world data s w w' out :
  handle_offer data s w = Ok (w', out) -> w' = w.
Proof.
  unfold handle_offer. intros H.
  repeat match type of H with
         | context [bind ?r _] => destruct r; simpl in H; try discriminate
         | context [match ?o with Some _ => _ | None => _ end] =>
             destruct o; simpl in H
         end; inversion H; reflexivity.
Qed.

Lemma handle_answer_world data s w w' out :
  handle_answer data s w = Ok (w', out) -> w' = w.
Proof.
  unfold handle_answer. intros H.
  repeat match type of H with
         | context [bind ?r _] => destruct r; simpl in H; try discriminate
         | context [match ?o with Some _ => _ | None => _ end] =>
             destruct o; simpl in H
         end; inversion H; reflexivity.
Qed.

Lemma handle_ice_candidate_world data s w w' out :
  handle_ice_candidate data s w = Ok (w', out) -> w' = w.
Proof.
  unfold handle_ice_candidate. intros H.
  repeat match type of H with
         | context [bind ?r _] => destruct r; simpl in H; try discriminate
         | context [match ?o with Some _ => _ | None => _ end] =>
             destruct o; simpl in H
         end; inversion H; reflexivity.
Qed.

Lemma handle_get_room_info_world data s w w' out :
  handle_get_room_info data s w = Ok (w', out) -> w' = w.
Proof.
  unfold handle_get_room_info. intros H.
  destruct (Dict.get "roomId" data) as [rid|]; [|inversion H; reflexivity].
  destruct (truthy (Some rid) && Dict.mem rid (rooms w));
    [|inversion H; reflexivity].
  destruct (getitem rid (rooms w)); simpl in H; [|discriminate].
  inversion H; reflexivity.
Qed.

(** ** Registry invariants *)

Section Preservation.
Variable P : room -> Prop.
Hypothesis P_insert :
  forall rm user_id info,
    Dict.len rm < MAX_ROOM_SIZE -> P (Dict.set user_id info rm).
Hypothesis P_delete :
  forall rm user_id,
    P rm -> Dict.del user_id rm <> [] -> P (Dict.del user_id rm).

Lemma every_room_init : every_room P (rooms init).
Proof. intros room_id rm H. discriminate H. Qed.

Lemma every_room_set room_id rm rs :
  every_room P rs -> P rm -> every_room P (Dict.set room_id rm rs).
Proof.
  intros Hrs Hrm r rm0. rewrite get_set.
  destruct (String.eqb r room_id); [intros E; inversion E; subst; exact Hrm|].
  apply Hrs.
Qed.

Lemma every_room_after_removal room_id user_id rm rs :
  every_room P rs -> Dict.get room_id rs = Some rm ->
  every_room P (after_removal room_id user_id rm rs).
Proof.
  intros Hrs Hrm. unfold after_removal.
  destruct (Dict.is_empty (Dict.del user_id rm)) eqn:E.
  - intros r rm0. rewrite get_del, get_set.
    destruct (String.eqb r room_id); [discriminate|]. apply Hrs.
  - apply every_room_set; [exact Hrs|].
    apply P_delete; [exact (Hrs _ _ Hrm)|].
    intros N. apply is_empty_nil in N. congruence.
Qed.

Lemma handle_join_room_every_room data s w w' out :
  handle_join_room data s w = Ok (w', out) ->
  every_room P (rooms w) -> every_room P (rooms w').
Proof.
  intros H Hw.
  destruct (handle_join_room_fields _ _ _ _ H)
    as (room_id & user_id & uname & Hr & Hu & Hn).
  rewrite (handle_join_room_eq _ s w _ _ _ Hr Hu Hn) in H.
  cbv zeta in H.
  destruct (MAX_ROOM_SIZE <=? Dict.len (room_before room_id (rooms w))) eqn:E;
    inversion H; subst; [exact Hw|].
  simpl. apply every_room_set; [exact Hw|].
  apply P_insert. apply Nat.leb_gt. exact E.
Qed.

Lemma handle_leave_room_every_room data s w w' out :
  handle_leave_room data s w = Ok (w', out) ->
  every_room P (rooms w) -> every_room P (rooms w').
Proof.
  intros H Hw.
  destruct (handle_leave_room_fields _ _ _ _ H)
    as (room_id & user_id & Hr & Hu).
  rewrite (handle_leave_room_eq _ s w _ _ Hr Hu) in H.
  destruct (Dict.get room_id (rooms w)) as [rm|] eqn:E;
    [|inversion H; subst; exact Hw].
  destruct (Dict.get user_id rm) as [info|];
    inversion H; subst; [|exact Hw].
  simpl. apply every_room_after_removal; assumption.
Qed.

Lemma handle_disconnect_every_room s w w' out :
  handle_disconnect s w = Ok (w', out) ->
  every_room P (rooms w) -> every_room P (rooms w').
Proof.
  rewrite handle_disconnect_eq. intros H Hw.
  destruct (scan_rooms s (rooms w) (Dict.keys (rooms w)))
    as [[[[room_id rm] user_id] info]|] eqn:E;
    inversion H; subst; [|exact Hw].
  simpl. apply every_room_after_removal; [exact Hw|].
  apply (scan_rooms_sound _ _ _ _ _ _ _ E).
Qed.

Lemma dispatch_every_room ev s w w' out :
  dispatch ev s w = Ok (w', out) ->
  every_room P (rooms w) -> every_room P (rooms w').
Proof.
  destruct ev; simpl; intros H Hw.
  - inversion H; subst; exact Hw.
  - eapply handle_disconnect_every_room; eassumption.
  - eapply handle_join_room_every_room; eassumption.
  - eapply handle_leave_room_every_room; eassumption.
  - rewrite (handle_offer_world _ _ _ _ _ H); exact Hw.
  - rewrite (handle_answer_world _ _ _ _ _ H); exact Hw.
  - rewrite (handle_ice_candidate_world _ _ _ _ _ H); exact Hw.
  - rewrite (handle_get_room_info_world _ _ _ _ _ H); exact Hw.
Qed.

Lemma step_every_room e w :
  every_room P (rooms w) -> every_room P (rooms (fst (step e w))).
Proof.
  destruct e as [s ev]. intros Hw. unfold step.
  destruct (dispatch ev s w) as [[w' out]|k] eqn:E; [|exact Hw].
  pose proof (dispatch_every_room _ _ _ _ _ E Hw) as Hw'.
  destruct ev; exact Hw'.
Qed.

Lemma run_every_room evs :
  forall w, every_room P (rooms w) -> every_room P (rooms (run evs w)).
Proof.
  induction evs as [|e evs IH]; intros w Hw; simpl; [exact Hw|].
  apply IH, step_every_room, Hw.
Qed.
End Preservation.

Lemma bounded_insert (rm : room) user_id info :
  Dict.len rm < MAX_ROOM_SIZE ->
  Dict.len (Dict.set user_id info rm) <= MAX_ROOM_SIZE.
Proof. intros H. pose proof (len_set_le user_id info rm). lia. Qed.

Lemma bounded_delete (rm : room) user_id :
  Dict.len rm <= MAX_ROOM_SIZE -> Dict.del user_id rm <> [] ->
  Dict.len (Dict.del user_id rm) <= MAX_ROOM_SIZE.
Proof. intros H _. pose proof (len_del_le user_id rm). lia. Qed.

Lemma run_bounded evs w : bounded (rooms w) -> bounded (rooms (run evs w)).
Proof.
  apply run_every_room; [apply bounded_insert | apply bounded_delete].
Qed.

Lemma step_no_empty_rooms e w :
  no_empty_rooms (rooms w) -> no_empty_rooms (rooms (fst (step e w))).
Proof.
  apply step_every_room.
  - intros rm user_id info _. apply set_not_nil.
  - intros rm user_id _ H. exact H.
Qed.

Lemma run_no_empty_rooms evs w :
  no_empty_rooms (rooms w) -> no_empty_rooms (rooms (run evs w)).
Proof.
  revert w. induction evs as [|e evs IH]; intros w Hw; simpl; [exact Hw|].
  apply IH, step_no_empty_rooms, Hw.
Qed.

(** ** Capacity *)

(** C1. Along every sequence of events (join-room events in particular),
    started from a Registry whose rooms hold at most 6 members (the empty
    Registry of process start is one), every room holds at most 6 members;
    and a join-room addressed to a room that already holds 6 members emits
    one room-full notice, delivered to the requesting connection only, and
    leaves the Registry (the whole world) as it was. *)
Theorem room_capacity :
  (forall evs w room_id rm,
      bounded (rooms w) ->
      Dict.get room_id (rooms (run evs w)) = Some rm ->
      Dict.len rm <= 6) /\
  (forall data s w room_id user_id uname rm,
      getitem "roomId" data = Ok room_id ->
      getitem "userId" data = Ok user_id ->
      getitem "username" data = Ok uname ->
      Dict.get room_id (rooms w) = Some rm ->
      6 <= Dict.len rm ->
      handle_join_room data s w
      = Ok (w, [Msg "room-full"
                    (JObj [("message", JStr "Room is full (max 6 users)")])
                    (ToSid s)]) /\
      forall T, recipients T (room_full s) = [s]).
Proof.
  split.
  - intros evs w room_id rm Hw Hget.
    exact (run_bounded evs w Hw room_id rm Hget).
  - intros data s w room_id user_id uname rm Hr Hu Hn Hget Hlen.
    split; [|reflexivity].
    rewrite (handle_join_room_eq _ s w _ _ _ Hr Hu Hn).
    unfold room_before. rewrite Hget. cbv zeta.
    destruct (Nat.leb_spec MAX_ROOM_SIZE (Dict.len rm)) as [_|Hlt];
      [reflexivity|].
    unfold MAX_ROOM_SIZE in Hlt. lia.
Qed.

Lemma room_capacity_witness :
  (forall room_id rm,
      Dict.get room_id
        (rooms (run [("c1", JoinRoom (join_data "R" "u1" "ann"));
                     ("c2", JoinRoom (join_data "R" "u2" "bob"))] init))
      = Some rm ->
      Dict.len rm <= 6) /\
  handle_join_room (join_data "R" "u7" "gus") "c7" full_world
  = Ok (full_world,
        [Msg "room-full"
             (JObj [("message", JStr "Room is full (max 6 users)")])
             (ToSid "c7")]).
Proof.
  split.
  - intros room_id rm.
    apply (proj1 room_capacity _ init room_id rm).
    intros r x H. discriminate H.
  - apply (proj2 room_capacity (join_data "R" "u7" "gus") "c7" full_world
             "R" "u7" "gus" full_room); reflexivity.
Defined.

(** ** Empty rooms *)

(** C2 (defect of the code). A join-room whose userId is a JSON array or
    object, addressed to a room that does not exist yet, raises
    [TypeError] after it has created the room: nothing is emitted, the
    connection does not enter the transport room, and the room stays in
    the Registry with zero members, appended after the rooms already
    there.  The Registry then holds an empty room, which the removal paths
    of [handle_leave_room] and [handle_disconnect] are written to
    prevent. *)
Theorem failed_join_leaves_empty_room room_id user_id uname s w :
  Dict.get room_id (rooms w) = None ->
  exists w',
    handle_join_room_unhashable_user room_id user_id uname s w
    = RaisedTypeError w' [] /\
    rooms w' = rooms w ++ [(room_id, [])] /\
    sio_rooms w' = sio_rooms w /\
    Dict.get room_id (rooms w') = Some [] /\
    ~ no_empty_rooms (rooms w').
Proof.
  intros Habs. unfold handle_join_room_unhashable_user, Dict.mem.
  rewrite Habs, get_set, String.eqb_refl. simpl.
  eexists. split; [reflexivity|]. simpl.
  assert (G : Dict.get room_id (Dict.set room_id ([] : room) (rooms w))
              = Some []).
  { rewrite get_set, String.eqb_refl. reflexivity. }
  split; [apply set_absent, Habs|]. split; [reflexivity|].
  split; [exact G|].
  intros Hne. exact (Hne _ _ G eq_refl).
Qed.

Lemma failed_join_leaves_empty_room_witness :
  handle_join_room_unhashable_user "R" (UList [JNum 1]) "x" "c1" init
  = RaisedTypeError (World [("R", [])] []) [] /\
  ~ no_empty_rooms [("R", ([] : room))].
Proof.
  destruct (failed_join_leaves_empty_room "R" (UList [JNum 1]) "x" "c1" init
              eq_refl) as (w' & H & _ & _ & _ & Hne).
  split; [reflexivity|].
  vm_compute in H. inversion H; subst w'. exact Hne.
Defined.

(** X20. On payloads whose fields are strings, no event leaves an empty
    room behind: a Registry without empty rooms has none after any single
    such event, so none is present along a run of such events from process
    start; and when a leave-room or a disconnect removes the last member
    of a room, the room is absent from the Registry the handler
    returns. *)
Theorem empty_rooms_collected :
  (forall e w,
      no_empty_rooms (rooms w) ->
      no_empty_rooms (rooms (fst (step e w)))) /\
  (forall evs room_id rm,
      Dict.get room_id (rooms (run evs init)) = Some rm -> rm <> []) /\
  (forall data s w room_id user_id rm info,
      getitem "roomId" data = Ok room_id ->
      getitem "userId" data = Ok user_id ->
      Dict.get room_id (rooms w) = Some rm ->
      Dict.get user_id rm = Some info ->
      Dict.del user_id rm = [] ->
      exists w' out,
        handle_leave_room data s w = Ok (w', out) /\
        Dict.get room_id (rooms w') = None) /\
  (forall s w room_id user_id rm info,
      scan_rooms s (rooms w) (Dict.keys (rooms w))
      = Some (room_id, rm, user_id, info) ->
      Dict.del user_id rm = [] ->
      exists w' out,
        handle_disconnect s w = Ok (w', out) /\
        Dict.get room_id (rooms w') = None).
Proof.
  assert (gone : forall room_id user_id (rm : room) rs,
             Dict.del user_id rm = [] ->
             Dict.get room_id (after_removal room_id user_id rm rs) = None).
  { intros room_id user_id rm rs E. unfold after_removal. rewrite E. simpl.
    rewrite get_del, String.eqb_refl. reflexivity. }
  split; [|split; [|split]].
  - exact step_no_empty_rooms.
  - intros evs room_id rm.
    apply (run_no_empty_rooms evs init).
    intros r x H. discriminate H.
  - intros data s w room_id user_id rm info Hr Hu Hget Hin E.
    rewrite (handle_leave_room_eq _ s w _ _ Hr Hu), Hget, Hin.
    eexists _, _. split; [reflexivity|]. simpl. apply gone, E.
  - intros s w room_id user_id rm info Hscan E.
    rewrite handle_disconnect_eq, Hscan.
    eexists _, _. split; [reflexivity|]. simpl. apply gone, E.
Qed.

Lemma empty_rooms_collected_witness :
  no_empty_rooms
    (rooms (fst (step ("c1", LeaveRoom (leave_data "R" "u1")) full_world))) /\
  (exists w' out,
      handle_leave_room (leave_data "S" "a") "k"
        (World [("S", [("a", Member "al" "k")])] [("S", ["k"])])
      = Ok (w', out) /\
      Dict.get "S" (rooms w') = None) /\
  (exists w' out,
      handle_disconnect "k"
        (World [("S", [("a", Member "al" "k")])] [("S", ["k"])])
      = Ok (w', out) /\
      Dict.get "S" (rooms w') = None).
Proof.
  destruct empty_rooms_collected as (Hstep & _ & Hleave & Hdisc).
  split; [|split].
  - apply Hstep. intros room_id rm. simpl.
    destruct (String.eqb room_id "R"); [|discriminate].
    intros H. inversion H. discriminate.
  - apply (Hleave (leave_data "S" "a") "k" _ "S" "a"
             [("a", Member "al" "k")] (Member "al" "k")); reflexivity.
  - apply (Hdisc "k" _ "S" "a" [("a", Member "al" "k")] (Member "al" "k"));
      reflexivity.
Defined.

(** ** Facts on the transport rooms *)

Lemma in_drop_sid s c l : In c (drop_sid s l) <-> In c l /\ c <> s.
Proof.
  unfold drop_sid. rewrite filter_In.
  destruct (String.eqb_spec s c) as [->|Hsc]; simpl; split;
    intros [H1 H2]; try discriminate; try congruence; auto.
Qed.

Lemma drop_sid_snoc s l : drop_sid s (l ++ [s]) = drop_sid s l.
Proof.
  unfold drop_sid. rewrite filter_app. simpl.
  rewrite String.eqb_refl. simpl. apply app_nil_r.
Qed.

Lemma participants_join_room s r T :
  drop_sid s (participants r (join_room s r T)) = drop_sid s (participants r T).
Proof.
  unfold join_room.
  destruct (sid_in s (participants r T)); [reflexivity|].
  unfold participants at 1. rewrite get_set, String.eqb_refl.
  apply drop_sid_snoc.
Qed.

Lemma participants_leave_room s r T :
  participants r (leave_room s r T) = drop_sid s (participants r T).
Proof.
  unfold leave_room, participants.
  destruct (Dict.get r T) as [l|] eqn:E.
  - rewrite get_set, String.eqb_refl. reflexivity.
  - rewrite E. reflexivity.
Qed.

(** ** Joining *)

(** C3 (as amended). A join-room into a room holding fewer than 6 members
    emits exactly two messages.  The first is existing-users, delivered to
    the joining connection only, listing the (userId, username) pairs of
    the room as it was before the insertion.  The second is user-joined
    with the joiner's userId and username, broadcast to the room's
    transport group with the joining connection skipped: it is delivered
    exactly to the connections in that group other than the joiner's, hence
    to every other member whose connection is in the group, and never to
    the joining connection. *)
Theorem join_notifications data s w room_id user_id uname :
  getitem "roomId" data = Ok room_id ->
  getitem "userId" data = Ok user_id ->
  getitem "username" data = Ok uname ->
  Dict.len (room_before room_id (rooms w)) < 6 ->
  let before := room_before room_id (rooms w) in
  let existing :=
    Msg "existing-users"
        (JObj [("users",
                JArr (map (fun e =>
                             JObj [("userId", JStr (fst e));
                                   ("username", JStr (username (snd e)))])
                          before))])
        (ToSid s) in
  let joined :=
    Msg "user-joined"
        (JObj [("userId", JStr user_id); ("username", JStr uname)])
        (ToRoom room_id (Some s)) in
  exists w',
    handle_join_room data s w = Ok (w', [existing; joined]) /\
    recipients (sio_rooms w') existing = [s] /\
    (forall c, In c (recipients (sio_rooms w') joined) <->
               In c (participants room_id (sio_rooms w)) /\ c <> s) /\
    (forall uid info,
        Dict.get uid before = Some info ->
        sid info <> s ->
        In (sid info) (participants room_id (sio_rooms w)) ->
        In (sid info) (recipients (sio_rooms w') joined)) /\
    ~ In s (recipients (sio_rooms w') joined).
Proof.
  intros Hr Hu Hn Hlen before existing joined.
  rewrite (handle_join_room_eq _ s w _ _ _ Hr Hu Hn). cbv zeta.
  destruct (Nat.leb_spec MAX_ROOM_SIZE (Dict.len (room_before room_id (rooms w))))
    as [Hfull|_]; [unfold MAX_ROOM_SIZE in Hfull; lia|].
  eexists. split; [reflexivity|].
  assert (R : forall c, In c (recipients
                (join_room s room_id (sio_rooms w)) joined) <->
              In c (participants room_id (sio_rooms w)) /\ c <> s).
  { intros c. unfold recipients, joined. simpl.
    rewrite participants_join_room. apply in_drop_sid. }
  simpl sio_rooms. split; [reflexivity|]. split; [exact R|]. split.
  - intros uid info _ Hs Hin. apply R. auto.
  - intros Hin. apply R in Hin. destruct Hin as [_ N]. apply N. reflexivity.
Qed.

Lemma join_notifications_witness :
  exists w',
    handle_join_room (join_data "R" "u2" "bob") "c2"
      (World [("R", [("u1", Member "ann" "c1")])] [("R", ["c1"])])
    = Ok (w',
          [Msg "existing-users"
               (JObj [("users",
                       JArr [JObj [("userId", JStr "u1");
                                   ("username", JStr "ann")]])])
               (ToSid "c2");
           Msg "user-joined"
               (JObj [("userId", JStr "u2"); ("username", JStr "bob")])
               (ToRoom "R" (Some "c2"))]).
Proof.
  destruct (join_notifications (join_data "R" "u2" "bob") "c2"
              (World [("R", [("u1", Member "ann" "c1")])] [("R", ["c1"])])
              "R" "u2" "bob") as (w' & H & _).
  - reflexivity.
  - reflexivity.
  - reflexivity.
  - simpl. lia.
  - exists w'. exact H.
Defined.

(** C3 as stated fails: after connection c1 (member A) has sent a
    leave-room naming member B, it is out of the transport group of "R"
    while A is still registered; the user-joined notice of the next joiner
    does not reach A. *)
Lemma join_notice_misses_member :
  let w := run [("c1", JoinRoom (join_data "R" "A" "ann"));
                ("c2", JoinRoom (join_data "R" "B" "bob"));
                ("c1", LeaveRoom (leave_data "R" "B"))] init in
  let joined := Msg "user-joined"
                    (JObj [("userId", JStr "C"); ("username", JStr "cat")])
                    (ToRoom "R" (Some "c3")) in
  exists w' existing,
    handle_join_room (join_data "R" "C" "cat") "c3" w
    = Ok (w', [existing; joined]) /\
    Dict.get "A" (room_before "R" (rooms w)) = Some (Member "ann" "c1") /\
    "c1" <> "c3" /\
    ~ In "c1" (recipients (sio_rooms w') joined).
Proof.
  eexists _, _. split; [reflexivity|]. split; [reflexivity|].
  split; [discriminate|].
  simpl. intros [H|[]]. discriminate H.
Qed.

(** ** Join followed by leave *)

Lemma join_leave_registry dj dl s s' w room_id user_id uname :
  Dict.get room_id (rooms w) <> Some [] ->
  getitem "roomId" dj = Ok room_id ->
  getitem "userId" dj = Ok user_id ->
  getitem "username" dj = Ok uname ->
  getitem "roomId" dl = Ok room_id ->
  getitem "userId" dl = Ok user_id ->
  Dict.get user_id (room_before room_id (rooms w)) = None ->
  exists w1 out1 w2 out2,
    handle_join_room dj s w = Ok (w1, out1) /\
    handle_leave_room dl s' w1 = Ok (w2, out2) /\
    rooms w2 = rooms w.
Proof.
  intros Hne Hr Hu Hn Hr' Hu' Hnew.
  rewrite (handle_join_room_eq _ s w _ _ _ Hr Hu Hn). cbv zeta.
  destruct (MAX_ROOM_SIZE <=? Dict.len (room_before room_id (rooms w))).
  - (* room full: the join is refused, the leave finds no such member *)
    eexists _, _, w, []. split; [reflexivity|]. split; [|reflexivity].
    rewrite (handle_leave_room_eq _ s' w _ _ Hr' Hu').
    unfold room_before in Hnew.
    destruct (Dict.get room_id (rooms w)) as [rm|]; [|reflexivity].
    rewrite Hnew. reflexivity.
  - eexists _, _, _, _. split; [reflexivity|].
    rewrite (handle_leave_room_eq _ s' _ _ _ Hr' Hu'). simpl rooms.
    rewrite get_set, String.eqb_refl.
    rewrite get_set, String.eqb_refl.
    split; [reflexivity|]. simpl rooms.
    unfold after_removal.
    rewrite (set_absent _ _ _ Hnew), (del_appended _ _ _ Hnew), set_set.
    unfold room_before in *.
    destruct (Dict.get room_id (rooms w)) as [rm|] eqn:E.
    + destruct rm as [|e rm]; [exfalso; exact (Hne eq_refl)|].
      simpl Dict.is_empty. cbv iota. apply set_get_id, E.
    + simpl Dict.is_empty. cbv iota.
      rewrite (set_absent _ _ _ E). apply del_appended, E.
Qed.

(** C4 (as amended). In every Registry state, for every roomId and userId
    (strings) such that the userId is not a member of the room and the
    room is not registered with zero members, a join-room for the pair
    followed at once by a leave-room for the same pair, from any
    connections, gives back the Registry of before the join, order of the
    rooms and of the members included; a room that did not exist before
    the join is absent again after the leave. *)
Theorem join_then_leave_restores dj dl s s' w room_id user_id uname :
  getitem "roomId" dj = Ok room_id ->
  getitem "userId" dj = Ok user_id ->
  getitem "username" dj = Ok uname ->
  getitem "roomId" dl = Ok room_id ->
  getitem "userId" dl = Ok user_id ->
  Dict.get user_id (room_before room_id (rooms w)) = None ->
  Dict.get room_id (rooms w) <> Some [] ->
  exists w1 out1 w2 out2,
    handle_join_room dj s w = Ok (w1, out1) /\
    handle_leave_room dl s' w1 = Ok (w2, out2) /\
    rooms w2 = rooms w /\
    (Dict.get room_id (rooms w) = None -> Dict.get room_id (rooms w2) = None).
Proof.
  intros Hr Hu Hn Hr' Hu' Hnew Hne.
  destruct (join_leave_registry dj dl s s' w _ _ _ Hne Hr Hu Hn Hr' Hu' Hnew)
    as (w1 & out1 & w2 & out2 & Hj & Hl & E).
  exists w1, out1, w2, out2. repeat split; try assumption.
  rewrite E. auto.
Qed.

Lemma join_then_leave_restores_witness :
  (exists w1 out1 w2 out2,
      handle_join_room (join_data "S" "u9" "zed") "c9" pair_world
      = Ok (w1, out1) /\
      handle_leave_room (leave_data "S" "u9") "c9" w1 = Ok (w2, out2) /\
      rooms w2 = rooms pair_world /\
      Dict.get "S" (rooms w2) = None) /\
  (exists w1 out1 w2 out2,
      handle_join_room (join_data "R" "u9" "zed") "c9" pair_world
      = Ok (w1, out1) /\
      handle_leave_room (leave_data "R" "u9") "c9" w1 = Ok (w2, out2) /\
      rooms w2 = rooms pair_world).
Proof.
  split.
  - destruct (join_then_leave_restores
                (join_data "S" "u9" "zed") (leave_data "S" "u9")
                "c9" "c9" pair_world "S" "u9" "zed")
      as (w1 & out1 & w2 & out2 & Hj & Hl & E & N);
      try reflexivity; [discriminate|].
    exists w1, out1, w2, out2.
    split; [exact Hj|]. split; [exact Hl|]. split; [exact E|].
    apply N. reflexivity.
  - destruct (join_then_leave_restores
                (join_data "R" "u9" "zed") (leave_data "R" "u9")
                "c9" "c9" pair_world "R" "u9" "zed")
      as (w1 & out1 & w2 & out2 & Hj & Hl & E & _);
      try reflexivity; [discriminate|].
    exists w1, out1, w2, out2. auto.
Defined.

(** C4 as stated fails where a room is registered with zero members, the
    state a join-room with an unhashable userId leaves behind: the join
    then fills the room, and the leave that empties it again deletes it,
    so that the Registry of before the join, which held the empty room, is
    not restored. *)
Lemma join_then_leave_drops_empty_room :
  let w := world_after
             (handle_join_room_unhashable_user "R" (UList [JNum 1]) "x" "c0"
                init) in
  exists w1 out1 w2 out2,
    rooms w = [("R", [])] /\
    Dict.get "A" (room_before "R" (rooms w)) = None /\
    handle_join_room (join_data "R" "A" "ann") "c1" w = Ok (w1, out1) /\
    handle_leave_room (leave_data "R" "A") "c1" w1 = Ok (w2, out2) /\
    rooms w2 = [] /\
    rooms w2 <> rooms w.
Proof.
  eexists _, _, _, _. split; [reflexivity|]. split; [reflexivity|].
  split; [reflexivity|]. split; [reflexivity|].
  split; [reflexivity|]. discriminate.
Qed.

(** ** Leave and disconnect *)

Lemma scan_users_complete s (rm : room) uids user_id info :
  In user_id uids ->
  Dict.get user_id rm = Some info -> sid info = s ->
  exists x, scan_users s rm uids = Some x.
Proof.
  intros Hin Hget Hs.
  induction uids as [|u uids IH]; simpl; [destruct Hin|].
  destruct (Dict.get u rm) as [i|] eqn:E.
  - destruct (String.eqb_spec (sid i) s) as [_|N]; [eauto|].
    destruct Hin as [->|Hin]; [|auto]. congruence.
  - destruct Hin as [->|Hin]; [congruence|auto].
Qed.





(** ** Relay *)

Lemma target_sid_of_none room_id target (rs : registry) :
  Dict.get room_id rs = None \/
  (exists rm : room,
      Dict.get room_id rs = Some rm /\ Dict.get target rm = None) ->
  target_sid_of room_id target rs = None.
Proof.
  unfold target_sid_of. intros [H|(rm & H & H')]; rewrite H; [reflexivity|].
  rewrite H'. reflexivity.
Qed.

(** C6. An offer, answer or ice-candidate event whose roomId is not in the
    Registry, or whose targetUserId is not a member of that room, emits no
    message at all (none to the sender either) and leaves the Registry, and
    the whole world, as it was. *)
Theorem relay_unknown_target_dropped data s w room_id target :
  getitem "roomId" data = Ok room_id ->
  getitem "targetUserId" data = Ok target ->
  Dict.get room_id (rooms w) = None \/
  (exists rm : room,
      Dict.get room_id (rooms w) = Some rm /\ Dict.get target rm = None) ->
  handle_offer data s w = Ok (w, []) /\
  handle_answer data s w = Ok (w, []) /\
  handle_ice_candidate data s w = Ok (w, []).
Proof.
  intros Hr Ht Hnone. apply target_sid_of_none in Hnone.
  unfold handle_offer, handle_answer, handle_ice_candidate.
  rewrite Hr, Ht. cbn [bind]. rewrite Hnone. auto.
Qed.

Lemma relay_unknown_target_dropped_witness :
  handle_offer [("roomId", "R"); ("targetUserId", "u9"); ("offer", "sdp");
                ("fromUserId", "u1"); ("fromUsername", "ann")]
               "c1" full_world
  = Ok (full_world, []).
Proof.
  apply (relay_unknown_target_dropped _ "c1" full_world "R" "u9");
    try reflexivity.
  right. exists full_room. split; reflexivity.
Defined.

(** C7. A relay event whose roomId and targetUserId resolve to a member
    emits exactly one message, delivered to the connection stored for that
    member and to no other.  The offer message has the fields offer,
    fromUserId and fromUsername; the answer and ice-candidate messages have
    the payload field and fromUserId only. *)
Theorem relay_delivery :
  (forall data s w room_id target (rm : room) info offer from_id from_name,
      getitem "roomId" data = Ok room_id ->
      getitem "targetUserId" data = Ok target ->
      Dict.get room_id (rooms w) = Some rm ->
      Dict.get target rm = Some info ->
      getitem "offer" data = Ok offer ->
      getitem "fromUserId" data = Ok from_id ->
      getitem "fromUsername" data = Ok from_name ->
      let m := Msg "offer"
                   (JObj [("offer", JStr offer);
                          ("fromUserId", JStr from_id);
                          ("fromUsername", JStr from_name)])
                   (ToSid (sid info)) in
      handle_offer data s w = Ok (w, [m]) /\
      forall T, recipients T m = [sid info]) /\
  (forall data s w room_id target (rm : room) info answer from_id,
      getitem "roomId" data = Ok room_id ->
      getitem "targetUserId" data = Ok target ->
      Dict.get room_id (rooms w) = Some rm ->
      Dict.get target rm = Some info ->
      getitem "answer" data = Ok answer ->
      getitem "fromUserId" data = Ok from_id ->
      let m := Msg "answer"
                   (JObj [("answer", JStr answer);
                          ("fromUserId", JStr from_id)])
                   (ToSid (sid info)) in
      handle_answer data s w = Ok (w, [m]) /\
      forall T, recipients T m = [sid info]) /\
  (forall data s w room_id target (rm : room) info candidate from_id,
      getitem "roomId" data = Ok room_id ->
      getitem "targetUserId" data = Ok target ->
      Dict.get room_id (rooms w) = Some rm ->
      Dict.get target rm = Some info ->
      getitem "candidate" data = Ok candidate ->
      getitem "fromUserId" data = Ok from_id ->
      let m := Msg "ice-candidate"
                   (JObj [("candidate", JStr candidate);
                          ("fromUserId", JStr from_id)])
                   (ToSid (sid info)) in
      handle_ice_candidate data s w = Ok (w, [m]) /\
      forall T, recipients T m = [sid info]).
Proof.
  split; [|split]; intros data s w room_id target rm info;
    intros p from_id.
  - intros from_name Hr Ht Hrm Hinfo Hp Hf Hn m.
    split; [|reflexivity].
    unfold handle_offer, target_sid_of.
    rewrite Hr, Ht. cbn [bind]. rewrite Hrm, Hinfo, Hp, Hf, Hn. reflexivity.
  - intros Hr Ht Hrm Hinfo Hp Hf m.
    split; [|reflexivity].
    unfold handle_answer, target_sid_of.
    rewrite Hr, Ht. cbn [bind]. rewrite Hrm, Hinfo, Hp, Hf. reflexivity.
  - intros Hr Ht Hrm Hinfo Hp Hf m.
    split; [|reflexivity].
    unfold handle_ice_candidate, target_sid_of.
    rewrite Hr, Ht. cbn [bind]. rewrite Hrm, Hinfo, Hp, Hf. reflexivity.
Qed.

Lemma relay_delivery_witness :
  handle_offer [("roomId", "R"); ("targetUserId", "u2"); ("offer", "sdp");
                ("fromUserId", "u1"); ("fromUsername", "ann")]
               "c1" full_world
  = Ok (full_world,
        [Msg "offer"
             (JObj [("offer", JStr "sdp"); ("fromUserId", JStr "u1");
                    ("fromUsername", JStr "ann")])
             (ToSid "c2")]) /\
  handle_answer [("roomId", "R"); ("targetUserId", "u1"); ("answer", "sdp");
                 ("fromUserId", "u2"); ("fromUsername", "bob")]
                "c2" full_world
  = Ok (full_world,
        [Msg "answer"
             (JObj [("answer", JStr "sdp"); ("fromUserId", JStr "u2")])
             (ToSid "c1")]) /\
  handle_ice_candidate [("roomId", "R"); ("targetUserId", "u1");
                        ("candidate", "ice"); ("fromUserId", "u2")]
                       "c2" full_world
  = Ok (full_world,
        [Msg "ice-candidate"
             (JObj [("candidate", JStr "ice"); ("fromUserId", JStr "u2")])
             (ToSid "c1")]).
Proof.
  destruct relay_delivery as (Ho & Ha & Hi).
  split; [|split].
  - apply (Ho _ "c1" full_world "R" "u2" full_room (Member "bob" "c2")
              "sdp" "u1" "ann"); reflexivity.
  - apply (Ha _ "c2" full_world "R" "u1" full_room (Member "ann" "c1")
              "sdp" "u2"); reflexivity.
  - apply (Hi _ "c2" full_world "R" "u1" full_room (Member "ann" "c1")
              "ice" "u2"); reflexivity.
Defined.

(** ** Room introspection *)

Lemma mem_get {V : Type} k (d : Dict.t V) :
  Dict.mem k d = match Dict.get k d with Some _ => true | None => false end.
Proof. reflexivity. Qed.

(** C8 (as amended). A get-room-info whose roomId is a string that is not
    a key of the Registry, or is missing from the payload, is answered,
    without error, by one room-info message to the requester with
    userCount 0 and no users; for a roomId that is a non-empty string and
    a key of the Registry, the reply carries the room's member count and
    its members' usernames in the room's order.  (A roomId that is not a
    string is outside this statement.) *)
Theorem room_info_reply :
  (forall data s w,
      (forall rid, Dict.get "roomId" data = Some rid ->
                   Dict.get rid (rooms w) = None) ->
      handle_get_room_info data s w
      = Ok (w, [Msg "room-info"
                    (JObj [("roomId",
                            match Dict.get "roomId" data with
                            | Some rid => JStr rid
                            | None => JNull
                            end);
                           ("userCount", JNum 0);
                           ("users", JArr [])])
                    (ToSid s)])) /\
  (forall data s w rid (rm : room),
      Dict.get "roomId" data = Some rid ->
      rid <> "" ->
      Dict.get rid (rooms w) = Some rm ->
      handle_get_room_info data s w
      = Ok (w, [Msg "room-info"
                    (JObj [("roomId", JStr rid);
                           ("userCount", JNum (List.length rm));
                           ("users",
                            JArr (map (fun e => JStr (username (snd e))) rm))])
                    (ToSid s)])).
Proof.
  split.
  - intros data s w Habs. unfold handle_get_room_info.
    destruct (Dict.get "roomId" data) as [rid|]; [|reflexivity].
    rewrite mem_get, (Habs rid eq_refl), andb_false_r. reflexivity.
  - intros data s w rid rm Hrid Hne Hrm. unfold handle_get_room_info.
    rewrite Hrid, mem_get, Hrm. simpl truthy.
    apply String.eqb_neq in Hne. rewrite Hne. simpl.
    unfold getitem. rewrite Hrm. cbn [bind].
    unfold room_info, emit, Dict.len, Dict.values. simpl.
    rewrite !map_map. reflexivity.
Qed.

Lemma room_info_reply_witness :
  handle_get_room_info [("roomId", "nowhere")] "c9" full_world
  = Ok (full_world,
        [Msg "room-info"
             (JObj [("roomId", JStr "nowhere"); ("userCount", JNum 0);
                    ("users", JArr [])])
             (ToSid "c9")]) /\
  handle_get_room_info [("roomId", "R")] "c9" full_world
  = Ok (full_world,
        [Msg "room-info"
             (JObj [("roomId", JStr "R"); ("userCount", JNum 6);
                    ("users",
                     JArr [JStr "ann"; JStr "bob"; JStr "cat";
                           JStr "dan"; JStr "eve"; JStr "fay"])])
             (ToSid "c9")]).
Proof.
  destruct room_info_reply as (Habsent & Hpresent).
  split.
  - apply (Habsent [("roomId", "nowhere")] "c9" full_world).
    intros rid H. inversion H. reflexivity.
  - apply (Hpresent [("roomId", "R")] "c9" full_world "R" full_room);
      [reflexivity | discriminate | reflexivity].
Defined.

(** C8 as stated fails for the room named by the empty string: after a
    join into room "" the room is present with one member, yet the reply
    to get-room-info for "" is the zeroed one. *)
Lemma room_info_hides_unnamed_room :
  let w := run [("c1", JoinRoom (join_data "" "u1" "ann"))] init in
  Dict.get "" (rooms w) = Some [("u1", Member "ann" "c1")] /\
  handle_get_room_info [("roomId", "")] "c2" w
  = Ok (w, [Msg "room-info"
                (JObj [("roomId", JStr ""); ("userCount", JNum 0);
                       ("users", JArr [])])
                (ToSid "c2")]).
Proof. split; reflexivity. Qed.

(** C10. A get-room-info whose roomId is the empty string, or is missing
    from the payload, is always answered by the zeroed room-info
    ([userCount] 0, no users), whatever the Registry holds, a populated
    room keyed by the empty string included: the handler tests the
    truthiness of roomId before it looks the room up. *)
Theorem room_info_falsy_room_id data s w :
  Dict.get "roomId" data = None \/ Dict.get "roomId" data = Some "" ->
  handle_get_room_info data s w
  = Ok (w, [Msg "room-info"
                (JObj [("roomId",
                        match Dict.get "roomId" data with
                        | Some rid => JStr rid
                        | None => JNull
                        end);
                       ("userCount", JNum 0);
                       ("users", JArr [])])
                (ToSid s)]).
Proof.
  unfold handle_get_room_info. intros [H|H]; rewrite H; reflexivity.
Qed.

Lemma room_info_falsy_room_id_witness :
  Dict.get "" (rooms unnamed_room_world)
  = Some [("u1", Member "ann" "c1"); ("u2", Member "bob" "c2")] /\
  handle_get_room_info [("roomId", "")] "c3" unnamed_room_world
  = Ok (unnamed_room_world,
        [Msg "room-info"
             (JObj [("roomId", JStr ""); ("userCount", JNum 0);
                    ("users", JArr [])])
             (ToSid "c3")]) /\
  handle_get_room_info [] "c3" unnamed_room_world
  = Ok (unnamed_room_world,
        [Msg "room-info"
             (JObj [("roomId", JNull); ("userCount", JNum 0);
                    ("users", JArr [])])
             (ToSid "c3")]).
Proof.
  split; [reflexivity|]. split.
  - apply (room_info_falsy_room_id [("roomId", "")] "c3" unnamed_room_world).
    right. reflexivity.
  - apply (room_info_falsy_room_id [] "c3" unnamed_room_world).
    left. reflexivity.
Defined.

(** ** Joining again under a userId already in the room *)

Lemma keys_set_present {V : Type} k (v v' : V) (d : Dict.t V) :
  Dict.get k d = Some v' -> Dict.keys (Dict.set k v d) = Dict.keys d.
Proof.
  unfold Dict.keys.
  induction d as [|[k0 v0] d IH]; simpl; [discriminate|].
  destruct (String.eqb k k0); simpl; [reflexivity|].
  intros H. rewrite (IH H). reflexivity.
Qed.

(** C9 (as amended). A join-room whose userId is already a member of the
    addressed room, the room holding fewer than 6 members, overwrites that
    member's entry in place: the room keeps its userIds, in order, and so
    its member count; the entry now holds the new username and the joining
    connection, the old connection id being stored nowhere; the other
    members are untouched.  No message is addressed to the old connection
    individually; the old connection, when it is not the joining one,
    receives the user-joined broadcast exactly when it is in the room's
    transport group. *)
Theorem rejoin_overwrites data s w room_id user_id uname (rm : room) old :
  getitem "roomId" data = Ok room_id ->
  getitem "userId" data = Ok user_id ->
  getitem "username" data = Ok uname ->
  Dict.get room_id (rooms w) = Some rm ->
  Dict.get user_id rm = Some old ->
  Dict.len rm < 6 ->
  let joined :=
    Msg "user-joined"
        (JObj [("userId", JStr user_id); ("username", JStr uname)])
        (ToRoom room_id (Some s)) in
  exists w' existing (rm' : room),
    handle_join_room data s w = Ok (w', [existing; joined]) /\
    to existing = ToSid s /\
    Dict.get room_id (rooms w') = Some rm' /\
    Dict.len rm' = Dict.len rm /\
    Dict.keys rm' = Dict.keys rm /\
    Dict.get user_id rm' = Some (Member uname s) /\
    (forall u, u <> user_id -> Dict.get u rm' = Dict.get u rm) /\
    (sid old <> s ->
     (forall m, In m [existing; joined] -> to m <> ToSid (sid old)) /\
     ~ In (sid old) (recipients (sio_rooms w') existing) /\
     (In (sid old) (recipients (sio_rooms w') joined) <->
      In (sid old) (participants room_id (sio_rooms w)))).
Proof.
  intros Hr Hu Hn Hrm Hold Hlen joined.
  rewrite (handle_join_room_eq _ s w _ _ _ Hr Hu Hn).
  unfold room_before. rewrite Hrm. cbv zeta.
  destruct (Nat.leb_spec MAX_ROOM_SIZE (Dict.len rm)) as [Hfull|_];
    [unfold MAX_ROOM_SIZE in Hfull; lia|].
  eexists _, _, _. split; [reflexivity|]. split; [reflexivity|].
  simpl rooms. simpl sio_rooms.
  split; [rewrite get_set, String.eqb_refl; reflexivity|].
  split; [exact (len_set_present _ _ _ _ Hold)|].
  split; [exact (keys_set_present _ _ _ _ Hold)|].
  split; [rewrite get_set, String.eqb_refl; reflexivity|].
  split.
  - intros u N. apply String.eqb_neq in N. rewrite get_set, N. reflexivity.
  - intros Hs. split; [|split].
    + intros m [<-|[<-|[]]]; simpl; congruence.
    + simpl. intros [E|[]]. congruence.
    + unfold recipients, joined. simpl.
      rewrite participants_join_room, in_drop_sid. tauto.
Qed.

Lemma rejoin_overwrites_witness :
  exists w' existing rm',
    handle_join_room (join_data "R" "u2" "rob") "c7" pair_world
    = Ok (w', [existing;
               Msg "user-joined"
                   (JObj [("userId", JStr "u2"); ("username", JStr "rob")])
                   (ToRoom "R" (Some "c7"))]) /\
    Dict.get "R" (rooms w') = Some rm' /\
    Dict.len rm' = 2 /\
    Dict.get "u2" rm' = Some (Member "rob" "c7").
Proof.
  destruct (rejoin_overwrites (join_data "R" "u2" "rob") "c7" pair_world
              "R" "u2" "rob" pair_room (Member "bob" "c2"))
    as (w' & existing & rm' & H & _ & Hrm & Hlen & _ & Hget & _);
    try reflexivity.
  - simpl. lia.
  - exists w', existing, rm'. auto.
Defined.

(** C9 as stated fails: when member A rejoins from connection c2, its old
    connection c1 is still in the transport group of "R" and receives the
    user-joined broadcast. *)
Lemma rejoin_reaches_old_connection :
  let w := run [("c1", JoinRoom (join_data "R" "A" "ann"))] init in
  let joined := Msg "user-joined"
                    (JObj [("userId", JStr "A"); ("username", JStr "ann")])
                    (ToRoom "R" (Some "c2")) in
  exists w' existing,
    Dict.get "R" (rooms w) = Some [("A", Member "ann" "c1")] /\
    handle_join_room (join_data "R" "A" "ann") "c2" w
    = Ok (w', [existing; joined]) /\
    Dict.get "R" (rooms w') = Some [("A", Member "ann" "c2")] /\
    In "c1" (recipients (sio_rooms w') joined).
Proof.
  eexists _, _. split; [reflexivity|]. split; [reflexivity|].
  split; [reflexivity|]. simpl. auto.
Qed.

(** * Further properties of the handlers *)

(** ** Memberships and removal *)

Lemma member_at_get room_id user_id (rs : registry) info :
  member_at room_id user_id rs = Some info <->
  exists rm : room,
    Dict.get room_id rs = Some rm /\ Dict.get user_id rm = Some info.
Proof.
  unfold member_at. split.
  - destruct (Dict.get room_id rs) as [rm|]; [eauto|discriminate].
  - intros (rm & -> & H). exact H.
Qed.

Lemma member_at_removed room_id user_id (rm : room) (rs : registry) :
  member_at room_id user_id (after_removal room_id user_id rm rs) = None.
Proof.
  unfold member_at, after_removal.
  destruct (Dict.is_empty (Dict.del user_id rm)).
  - rewrite get_del, String.eqb_refl. reflexivity.
  - rewrite get_set, String.eqb_refl, get_del, String.eqb_refl. reflexivity.
Qed.

Lemma member_at_kept room_id user_id (rm : room) (rs : registry) r' u' :
  Dict.get room_id rs = Some rm ->
  r' <> room_id \/ u' <> user_id ->
  member_at r' u' (after_removal room_id user_id rm rs) = member_at r' u' rs.
Proof.
  intros Hrm Hne. unfold member_at, after_removal.
  destruct (String.eqb_spec r' room_id) as [->|N].
  - destruct Hne as [Hne|Hne]; [congruence|].
    apply String.eqb_neq in Hne. rewrite Hrm.
    destruct (Dict.is_empty (Dict.del user_id rm)) eqn:E.
    + rewrite get_del, String.eqb_refl.
      apply is_empty_nil in E.
      pose proof (get_del u' user_id rm) as G. rewrite E, Hne in G.
      simpl in G. exact G.
    + rewrite get_set, String.eqb_refl, get_del, Hne. reflexivity.
  - apply String.eqb_neq in N.
    destruct (Dict.is_empty (Dict.del user_id rm));
      [rewrite get_del, N|]; rewrite get_set, N; reflexivity.
Qed.

Lemma scan_rooms_none s (rs : registry) rids :
  no_membership s rs -> scan_rooms s rs rids = None.
Proof.
  intros Hno.
  destruct (scan_rooms s rs rids) as [[[[r rm] u] info]|] eqn:E;
    [|reflexivity].
  destruct (scan_rooms_sound _ _ _ _ _ _ _ E) as (Hr & Hu & Hs).
  exfalso. apply (Hno r u info); [|exact Hs].
  apply member_at_get. eauto.
Qed.

Lemma scan_rooms_some s (rs : registry) r (rm : room) u info :
  Dict.get r rs = Some rm -> Dict.get u rm = Some info -> sid info = s ->
  forall rids, In r rids -> exists x, scan_rooms s rs rids = Some x.
Proof.
  intros Hr Hu Hs rids.
  induction rids as [|r0 rids IH]; simpl; [intros []|].
  intros Hin.
  destruct (Dict.get r0 rs) as [rm0|] eqn:E.
  - destruct (scan_users s rm0 (Dict.keys rm0)) as [[u0 i0]|] eqn:Eu;
      [eauto|].
    destruct Hin as [->|Hin]; [|auto].
    assert (rm0 = rm) by congruence. subst rm0.
    destruct (scan_users_complete s rm (Dict.keys rm) u info) as [x Hx];
      auto; [|congruence].
    eapply get_in_keys, Hu.
  - destruct Hin as [->|Hin]; [congruence|auto].
Qed.

(** X1. The disconnect of a connection that is stored in no entry of the
    Registry (it never joined, or already left) changes nothing and emits
    nothing. *)
Theorem disconnect_without_membership s w :
  no_membership s (rooms w) ->
  handle_disconnect s w = Ok (w, []) /\
  rooms (fst (step (s, Disconnect) w)) = rooms w /\
  snd (step (s, Disconnect) w) = [].
Proof.
  intros Hno.
  assert (E : handle_disconnect s w = Ok (w, [])).
  { rewrite handle_disconnect_eq, (scan_rooms_none _ _ _ Hno). reflexivity. }
  split; [exact E|]. unfold step, dispatch. rewrite E. split; reflexivity.
Qed.

Lemma disconnect_without_membership_witness :
  handle_disconnect "c9" full_world = Ok (full_world, []).
Proof.
  apply (disconnect_without_membership "c9" full_world).
  intros room_id user_id info. unfold member_at. simpl.
  destruct (String.eqb room_id "R"); [|discriminate]. simpl.
  repeat (destruct (String.eqb user_id _);
          [intros H; inversion H; subst info; simpl; discriminate|]).
  discriminate.
Defined.

(** X2. The disconnect of a connection stored in some entry removes exactly
    one entry held by that connection and announces it with one user-left
    message to that entry's room; every other entry of the Registry, any
    further entry of the same connection included, stays as it was. *)
Theorem disconnect_removes_one_membership s w r u i :
  member_at r u (rooms w) = Some i -> sid i = s ->
  exists w' room_id user_id info,
    handle_disconnect s w
    = Ok (w', [Msg "user-left"
                   (JObj [("userId", JStr user_id);
                          ("username", JStr (username info))])
                   (ToRoom room_id None)]) /\
    member_at room_id user_id (rooms w) = Some info /\
    sid info = s /\
    member_at room_id user_id (rooms w') = None /\
    (forall r' u',
        r' <> room_id \/ u' <> user_id ->
        member_at r' u' (rooms w') = member_at r' u' (rooms w)).
Proof.
  intros Hm Hs. apply member_at_get in Hm. destruct Hm as (rm & Hr & Hu).
  destruct (scan_rooms_some s (rooms w) r rm u i Hr Hu Hs
              (Dict.keys (rooms w)) (get_in_keys _ _ _ Hr))
    as [[[[room_id rm0] user_id] info] Hscan].
  destruct (scan_rooms_sound _ _ _ _ _ _ _ Hscan) as (Hr0 & Hu0 & Hs0).
  rewrite handle_disconnect_eq, Hscan.
  eexists _, room_id, user_id, info. split; [reflexivity|].
  split; [apply member_at_get; eauto|]. split; [exact Hs0|].
  simpl rooms. split; [apply member_at_removed|].
  intros r' u' Hne. apply member_at_kept; assumption.
Qed.

Lemma disconnect_removes_one_membership_witness :
  exists w' room_id user_id info,
    handle_disconnect "k" two_room_world
    = Ok (w', [Msg "user-left"
                   (JObj [("userId", JStr user_id);
                          ("username", JStr (username info))])
                   (ToRoom room_id None)]) /\
    member_at "R2" "b" (rooms w') = Some (Member "al" "k").
Proof.
  destruct (disconnect_removes_one_membership "k" two_room_world
              "R2" "b" (Member "al" "k") eq_refl eq_refl)
    as (w' & room_id & user_id & info & H & Hm & _ & _ & Hkeep).
  exists w', room_id, user_id, info. split; [exact H|].
  rewrite Hkeep; [reflexivity|].
  (* the scan stops in "R1", the first room *)
  vm_compute in H. inversion H. left. discriminate.
Defined.

(** X3. When a connection is stored in at most one entry, its disconnect
    leaves no entry holding it, so that a second disconnect of the same
    connection is a no-op. *)
Theorem disconnect_leaves_no_stale_entry s w :
  at_most_one_membership s (rooms w) ->
  exists w' out,
    handle_disconnect s w = Ok (w', out) /\
    no_membership s (rooms w') /\
    handle_disconnect s w' = Ok (w', []).
Proof.
  intros Huniq.
  assert (D : exists w' out,
             handle_disconnect s w = Ok (w', out) /\
             no_membership s (rooms w')).
  { rewrite handle_disconnect_eq.
    destruct (scan_rooms s (rooms w) (Dict.keys (rooms w)))
      as [[[[room_id rm] user_id] info]|] eqn:E.
    - destruct (scan_rooms_sound _ _ _ _ _ _ _ E) as (Hr & Hu & Hs).
      eexists _, _. split; [reflexivity|]. simpl rooms.
      intros r' u' i' Hm Hs'.
      destruct (String.eqb_spec r' room_id) as [->|Nr];
        [destruct (String.eqb_spec u' user_id) as [->|Nu]|].
      + rewrite member_at_removed in Hm. discriminate.
      + rewrite member_at_kept in Hm by auto.
        destruct (Huniq room_id u' i' room_id user_id info Hm Hs') as [_ F];
          [apply member_at_get; eauto|exact Hs|contradiction].
      + rewrite member_at_kept in Hm by auto.
        destruct (Huniq r' u' i' room_id user_id info Hm Hs') as [F _];
          [apply member_at_get; eauto|exact Hs|contradiction].
    - exists w, []. split; [reflexivity|].
      intros r' u' i' Hm Hs'. apply member_at_get in Hm.
      destruct Hm as (rm' & Hr' & Hu').
      destruct (scan_rooms_some s (rooms w) r' rm' u' i' Hr' Hu' Hs'
                  (Dict.keys (rooms w)) (get_in_keys _ _ _ Hr')) as [x Hx].
      congruence. }
  destruct D as (w' & out & H & Hno).
  exists w', out. split; [exact H|]. split; [exact Hno|].
  rewrite handle_disconnect_eq, (scan_rooms_none _ _ _ Hno). reflexivity.
Qed.

(** Case analysis of a membership hypothesis over a concrete Registry. *)
Ltac member_cases H :=
  unfold member_at in H; simpl in H;
  repeat match type of H with
         | context [String.eqb ?a ?b] =>
             destruct (String.eqb_spec a b); [subst|]; simpl in H
         end;
  try discriminate H; inversion H; subst; clear H.

Lemma disconnect_leaves_no_stale_entry_witness :
  exists w' out,
    handle_disconnect "c2" pair_world = Ok (w', out) /\
    handle_disconnect "c2" w' = Ok (w', []).
Proof.
  destruct (disconnect_leaves_no_stale_entry "c2" pair_world)
    as (w' & out & H & _ & H').
  - intros r1 u1 i1 r2 u2 i2 H1 S1 H2 S2.
    member_cases H1; simpl in S1; try discriminate S1;
      member_cases H2; simpl in S2; try discriminate S2; auto.
  - exists w', out. auto.
Defined.

(** ** Leaving *)

(** X4. A leave-room naming a registered (roomId, userId) removes exactly
    that entry, whichever connection sends it (the sender is not compared
    with the entry's connection), and emits one user-left message with the
    entry's userId and username to the room; every other entry of the
    Registry stays as it was. *)
Theorem leave_removes_named_member data s w room_id user_id info :
  getitem "roomId" data = Ok room_id ->
  getitem "userId" data = Ok user_id ->
  member_at room_id user_id (rooms w) = Some info ->
  exists w',
    handle_leave_room data s w
    = Ok (w', [Msg "user-left"
                   (JObj [("userId", JStr user_id);
                          ("username", JStr (username info))])
                   (ToRoom room_id None)]) /\
    member_at room_id user_id (rooms w') = None /\
    (forall r' u',
        r' <> room_id \/ u' <> user_id ->
        member_at r' u' (rooms w') = member_at r' u' (rooms w)).
Proof.
  intros Hr Hu Hm. apply member_at_get in Hm. destruct Hm as (rm & Hrm & Hi).
  rewrite (handle_leave_room_eq _ s w _ _ Hr Hu), Hrm, Hi.
  eexists. split; [reflexivity|]. simpl rooms.
  split; [apply member_at_removed|].
  intros r' u' Hne. apply member_at_kept; assumption.
Qed.

Lemma leave_removes_named_member_witness :
  exists w',
    handle_leave_room (leave_data "R" "u2") "c1" pair_world
    = Ok (w', [Msg "user-left"
                   (JObj [("userId", JStr "u2"); ("username", JStr "bob")])
                   (ToRoom "R" None)]) /\
    member_at "R" "u2" (rooms w') = None /\
    member_at "R" "u1" (rooms w') = Some (Member "ann" "c1").
Proof.
  destruct (leave_removes_named_member (leave_data "R" "u2") "c1" pair_world
              "R" "u2" (Member "bob" "c2") eq_refl eq_refl eq_refl)
    as (w' & H & Hgone & Hkeep).
  exists w'. split; [exact H|]. split; [exact Hgone|].
  rewrite Hkeep; [reflexivity|]. right. discriminate.
Defined.

Lemma handle_leave_room_absent data s w room_id user_id :
  getitem "roomId" data = Ok room_id ->
  getitem "userId" data = Ok user_id ->
  member_at room_id user_id (rooms w) = None ->
  handle_leave_room data s w = Ok (w, []).
Proof.
  intros Hr Hu Hm. rewrite (handle_leave_room_eq _ s w _ _ Hr Hu).
  unfold member_at in Hm.
  destruct (Dict.get room_id (rooms w)) as [rm|]; [|reflexivity].
  rewrite Hm. reflexivity.
Qed.

(** X5. A leave-room for a room that does not exist, or a userId that is
    not in it, changes nothing (the sender stays in the transport room) and
    emits nothing; so a leave-room repeated after one that went through,
    from any connection, is a no-op. *)
Theorem leave_room_twice :
  (forall data s w room_id user_id,
      getitem "roomId" data = Ok room_id ->
      getitem "userId" data = Ok user_id ->
      member_at room_id user_id (rooms w) = None ->
      handle_leave_room data s w = Ok (w, [])) /\
  (forall data s s' w w1 out1,
      handle_leave_room data s w = Ok (w1, out1) ->
      handle_leave_room data s' w1 = Ok (w1, [])).
Proof.
  split; [exact handle_leave_room_absent|].
  intros data s s' w w1 out1 H.
  destruct (handle_leave_room_fields _ _ _ _ H)
    as (room_id & user_id & Hr & Hu).
  apply (handle_leave_room_absent _ s' w1 _ _ Hr Hu).
  rewrite (handle_leave_room_eq _ s w _ _ Hr Hu) in H.
  unfold member_at.
  destruct (Dict.get room_id (rooms w)) as [rm|] eqn:Hrm.
  - destruct (Dict.get user_id rm) as [info|] eqn:Hi;
      inversion H; subst; clear H.
    + apply member_at_removed.
    + rewrite Hrm. exact Hi.
  - inversion H; subst. rewrite Hrm. reflexivity.
Qed.

Lemma leave_room_twice_witness :
  handle_leave_room (leave_data "nowhere" "u1") "c1" pair_world
  = Ok (pair_world, []) /\
  (exists w1 out1,
      handle_leave_room (leave_data "R" "u1") "c1" pair_world = Ok (w1, out1) /\
      handle_leave_room (leave_data "R" "u1") "c1" w1 = Ok (w1, [])).
Proof.
  destruct leave_room_twice as (Habs & Htwice).
  split.
  - apply (Habs _ "c1" pair_world "nowhere" "u1"); reflexivity.
  - eexists _, _. split; [reflexivity|].
    eapply (Htwice (leave_data "R" "u1") "c1" "c1" pair_world).
    reflexivity.
Defined.

(** X6. The connection that sends a leave-room is taken out of the room's
    transport group before user-left is emitted, so it never receives the
    user-left of its own request; the other connections of the group all
    receive it. *)
Theorem leaver_not_notified data s w w' out :
  handle_leave_room data s w = Ok (w', out) ->
  forall m, In m out ->
    ~ In s (recipients (sio_rooms w') m) /\
    exists room_id,
      getitem "roomId" data = Ok room_id /\
      forall c, c <> s ->
                In c (participants room_id (sio_rooms w)) ->
                In c (recipients (sio_rooms w') m).
Proof.
  intros H m Hm.
  destruct (handle_leave_room_fields _ _ _ _ H)
    as (room_id & user_id & Hr & Hu).
  rewrite (handle_leave_room_eq _ s w _ _ Hr Hu) in H.
  destruct (Dict.get room_id (rooms w)) as [rm|];
    [|inversion H; subst; destruct Hm].
  destruct (Dict.get user_id rm) as [info|];
    inversion H; subst; clear H; [|destruct Hm].
  destruct Hm as [<-|[]]. unfold recipients. simpl.
  rewrite participants_leave_room. split.
  - intros Hin. apply in_drop_sid in Hin. destruct Hin as [_ N]. auto.
  - exists room_id. split; [exact Hr|].
    intros c N Hin. apply in_drop_sid. auto.
Qed.

Lemma leaver_not_notified_witness :
  exists w' m,
    handle_leave_room (leave_data "R" "u1") "c1" pair_world = Ok (w', [m]) /\
    ~ In "c1" (recipients (sio_rooms w') m) /\
    In "c2" (recipients (sio_rooms w') m).
Proof.
  eexists _, _. split; [reflexivity|].
  destruct (leaver_not_notified (leave_data "R" "u1") "c1" pair_world _ _
              eq_refl _ (or_introl eq_refl)) as (Hnot & room_id & Hr & Hall).
  split; [exact Hnot|].
  inversion Hr; subst room_id.
  apply Hall; [discriminate|]. simpl. auto.
Defined.

(** ** Joining: what is touched, and what follows *)

Lemma member_at_room_before room_id u (rs : registry) :
  member_at room_id u rs = Dict.get u (room_before room_id rs).
Proof.
  unfold member_at, room_before.
  destruct (Dict.get room_id rs); reflexivity.
Qed.

(** X7. A join-room that goes through stores the joiner's username and
    connection under (roomId, userId) and touches no other entry of the
    Registry: no other room, and no other member of the room; a userId new
    to the room is appended after the members already there. *)
Theorem join_touches_one_entry data s w room_id user_id uname :
  getitem "roomId" data = Ok room_id ->
  getitem "userId" data = Ok user_id ->
  getitem "username" data = Ok uname ->
  Dict.len (room_before room_id (rooms w)) < 6 ->
  exists w' out,
    handle_join_room data s w = Ok (w', out) /\
    member_at room_id user_id (rooms w') = Some (Member uname s) /\
    (forall r' u',
        r' <> room_id \/ u' <> user_id ->
        member_at r' u' (rooms w') = member_at r' u' (rooms w)) /\
    (member_at room_id user_id (rooms w) = None ->
     Dict.get room_id (rooms w')
     = Some (room_before room_id (rooms w) ++ [(user_id, Member uname s)])).
Proof.
  intros Hr Hu Hn Hlen.
  rewrite (handle_join_room_eq _ s w _ _ _ Hr Hu Hn). cbv zeta.
  destruct (Nat.leb_spec MAX_ROOM_SIZE (Dict.len (room_before room_id (rooms w))))
    as [Hfull|_]; [unfold MAX_ROOM_SIZE in Hfull; lia|].
  eexists _, _. split; [reflexivity|]. simpl rooms.
  split; [|split].
  - unfold member_at. rewrite get_set, String.eqb_refl.
    rewrite get_set, String.eqb_refl. reflexivity.
  - intros r' u' Hne. unfold member_at at 1. rewrite get_set.
    destruct (String.eqb_spec r' room_id) as [->|N].
    + destruct Hne as [Hne|Hne]; [congruence|].
      apply String.eqb_neq in Hne.
      rewrite get_set, Hne. symmetry. apply member_at_room_before.
    + reflexivity.
  - intros Hnew. rewrite member_at_room_before in Hnew.
    rewrite get_set, String.eqb_refl, (set_absent _ _ _ Hnew). reflexivity.
Qed.

Lemma join_touches_one_entry_witness :
  exists w' out,
    handle_join_room (join_data "R" "u3" "cat") "c3" pair_world
    = Ok (w', out) /\
    member_at "R" "u3" (rooms w') = Some (Member "cat" "c3") /\
    member_at "R" "u1" (rooms w') = Some (Member "ann" "c1") /\
    Dict.get "R" (rooms w')
    = Some [("u1", Member "ann" "c1"); ("u2", Member "bob" "c2");
            ("u3", Member "cat" "c3")].
Proof.
  destruct (join_touches_one_entry (join_data "R" "u3" "cat") "c3" pair_world
              "R" "u3" "cat" eq_refl eq_refl eq_refl)
    as (w' & out & H & Hnew & Hkeep & Happ).
  - simpl. lia.
  - exists w', out. split; [exact H|]. split; [exact Hnew|]. split.
    + rewrite Hkeep; [reflexivity|]. right. discriminate.
    + apply Happ. reflexivity.
Defined.



(** X9. After a join-room that goes through, an offer, answer or
    ice-candidate addressed to the joiner's (roomId, userId) is delivered
    to the joining connection and to no other: routing follows the latest
    join, also when the userId was in the room before under another
    connection. *)
Theorem relay_follows_latest_join data s w room_id user_id uname w' out :
  getitem "roomId" data = Ok room_id ->
  getitem "userId" data = Ok user_id ->
  Dict.len (room_before room_id (rooms w)) < 6 ->
  handle_join_room data s w = Ok (w', out) ->
  getitem "username" data = Ok uname ->
  target_sid_of room_id user_id (rooms w') = Some s /\
  forall d q p from_id,
    getitem "roomId" d = Ok room_id ->
    getitem "targetUserId" d = Ok user_id ->
    getitem "fromUserId" d = Ok from_id ->
    (forall from_name,
        getitem "offer" d = Ok p ->
        getitem "fromUsername" d = Ok from_name ->
        handle_offer d q w'
        = Ok (w', [Msg "offer"
                       (JObj [("offer", JStr p);
                              ("fromUserId", JStr from_id);
                              ("fromUsername", JStr from_name)])
                       (ToSid s)])) /\
    (getitem "answer" d = Ok p ->
     handle_answer d q w'
     = Ok (w', [Msg "answer"
                    (JObj [("answer", JStr p); ("fromUserId", JStr from_id)])
                    (ToSid s)])) /\
    (getitem "candidate" d = Ok p ->
     handle_ice_candidate d q w'
     = Ok (w', [Msg "ice-candidate"
                    (JObj [("candidate", JStr p);
                           ("fromUserId", JStr from_id)])
                    (ToSid s)])).
Proof.
  intros Hr Hu Hlen H Hn.
  rewrite (handle_join_room_eq _ s w _ _ _ Hr Hu Hn) in H. cbv zeta in H.
  destruct (Nat.leb_spec MAX_ROOM_SIZE (Dict.len (room_before room_id (rooms w))))
    as [Hfull|_]; [unfold MAX_ROOM_SIZE in Hfull; lia|].
  inversion H; subst w' out; clear H.
  assert (T : target_sid_of room_id user_id
                (Dict.set room_id
                   (Dict.set user_id (Member uname s)
                      (room_before room_id (rooms w))) (rooms w)) = Some s).
  { unfold target_sid_of. rewrite get_set, String.eqb_refl.
    rewrite get_set, String.eqb_refl. reflexivity. }
  split; [exact T|].
  intros d q p from_id Hdr Hdt Hdf. split; [|split].
  - intros from_name Hp Hfn. unfold handle_offer.
    rewrite Hdr, Hdt. cbn [bind]. simpl rooms.
    rewrite T, Hp, Hdf, Hfn. reflexivity.
  - intros Hp. unfold handle_answer.
    rewrite Hdr, Hdt. cbn [bind]. simpl rooms.
    rewrite T, Hp, Hdf. reflexivity.
  - intros Hp. unfold handle_ice_candidate.
    rewrite Hdr, Hdt. cbn [bind]. simpl rooms.
    rewrite T, Hp, Hdf. reflexivity.
Qed.

Lemma relay_follows_latest_join_witness :
  exists w' out,
    handle_join_room (join_data "R" "u2" "rob") "c7" pair_world
    = Ok (w', out) /\
    handle_answer [("roomId", "R"); ("targetUserId", "u2");
                   ("answer", "sdp"); ("fromUserId", "u1")] "c1" w'
    = Ok (w', [Msg "answer"
                   (JObj [("answer", JStr "sdp"); ("fromUserId", JStr "u1")])
                   (ToSid "c7")]).
Proof.
  eexists _, _. split; [reflexivity|].
  assert (L : Dict.len (room_before "R" (rooms pair_world)) < 6)
    by (simpl; lia).
  destruct (relay_follows_latest_join
              (join_data "R" "u2" "rob") "c7" pair_world "R" "u2" "rob" _ _
              eq_refl eq_refl L eq_refl eq_refl) as [_ Hrelay].
  destruct (Hrelay [("roomId", "R"); ("targetUserId", "u2");
                    ("answer", "sdp"); ("fromUserId", "u1")]
                   "c1" "sdp" "u1" eq_refl eq_refl eq_refl)
    as (_ & Hanswer & _).
  apply Hanswer. reflexivity.
Defined.

(** ** No stale routing target *)

Lemma target_sid_of_member_at room_id user_id (rs : registry) :
  target_sid_of room_id user_id rs
  = match member_at room_id user_id rs with
    | Some info => Some (sid info)
    | None => None
    end.
Proof.
  unfold target_sid_of, member_at.
  destruct (Dict.get room_id rs); reflexivity.
Qed.

Lemma relays_dropped d q w room_id user_id :
  member_at room_id user_id (rooms w) = None ->
  getitem "roomId" d = Ok room_id ->
  getitem "targetUserId" d = Ok user_id ->
  handle_offer d q w = Ok (w, []) /\
  handle_answer d q w = Ok (w, []) /\
  handle_ice_candidate d q w = Ok (w, []).
Proof.
  intros Hm Hr Ht.
  unfold handle_offer, handle_answer, handle_ice_candidate.
  rewrite Hr, Ht. cbn [bind].
  rewrite target_sid_of_member_at, Hm. auto.
Qed.

Lemma handle_leave_room_removes data s w w' out room_id user_id :
  handle_leave_room data s w = Ok (w', out) ->
  getitem "roomId" data = Ok room_id ->
  getitem "userId" data = Ok user_id ->
  member_at room_id user_id (rooms w') = None.
Proof.
  intros H Hr Hu.
  rewrite (handle_leave_room_eq _ s w _ _ Hr Hu) in H.
  unfold member_at.
  destruct (Dict.get room_id (rooms w)) as [rm|] eqn:Hrm.
  - destruct (Dict.get user_id rm) as [info|] eqn:Hi;
      inversion H; subst; clear H.
    + apply member_at_removed.
    + rewrite Hrm. exact Hi.
  - inversion H; subst. rewrite Hrm. reflexivity.
Qed.

(** X10. Once a leave-room for (roomId, userId) has been handled, an
    offer, answer or ice-candidate addressed to that userId in that room is
    dropped: no message is emitted and the world stays as it is. *)
Theorem relay_after_leave_dropped data s w w' out room_id user_id d q :
  handle_leave_room data s w = Ok (w', out) ->
  getitem "roomId" data = Ok room_id ->
  getitem "userId" data = Ok user_id ->
  getitem "roomId" d = Ok room_id ->
  getitem "targetUserId" d = Ok user_id ->
  handle_offer d q w' = Ok (w', []) /\
  handle_answer d q w' = Ok (w', []) /\
  handle_ice_candidate d q w' = Ok (w', []).
Proof.
  intros H Hr Hu Hdr Hdt.
  apply (relays_dropped d q w' room_id user_id); try assumption.
  exact (handle_leave_room_removes _ _ _ _ _ _ _ H Hr Hu).
Qed.

Lemma relay_after_leave_dropped_witness :
  exists w' out,
    handle_leave_room (leave_data "R" "u2") "c2" pair_world = Ok (w', out) /\
    handle_offer [("roomId", "R"); ("targetUserId", "u2"); ("offer", "sdp");
                  ("fromUserId", "u1"); ("fromUsername", "ann")] "c1" w'
    = Ok (w', []).
Proof.
  eexists _, _. split; [reflexivity|].
  eapply (relay_after_leave_dropped (leave_data "R" "u2") "c2" pair_world
            _ _ "R" "u2"); reflexivity.
Defined.

(** X11. When a connection is stored in exactly one entry (roomId,
    userId), then after its disconnect an offer, answer or ice-candidate
    addressed to that userId in that room is dropped: the disconnected
    connection is no routing target any more. *)
Theorem relay_after_disconnect_dropped s w room_id user_id info d q :
  member_at room_id user_id (rooms w) = Some info ->
  sid info = s ->
  at_most_one_membership s (rooms w) ->
  getitem "roomId" d = Ok room_id ->
  getitem "targetUserId" d = Ok user_id ->
  exists w' out,
    handle_disconnect s w = Ok (w', out) /\
    handle_offer d q w' = Ok (w', []) /\
    handle_answer d q w' = Ok (w', []) /\
    handle_ice_candidate d q w' = Ok (w', []).
Proof.
  intros Hm Hs Huniq Hdr Hdt.
  pose proof Hm as Hm0. apply member_at_get in Hm0.
  destruct Hm0 as (rm & Hr & Hu).
  destruct (scan_rooms_some s (rooms w) room_id rm user_id info Hr Hu Hs
              (Dict.keys (rooms w)) (get_in_keys _ _ _ Hr))
    as [[[[r0 rm0] u0] i0] Hscan].
  destruct (scan_rooms_sound _ _ _ _ _ _ _ Hscan) as (Hr0 & Hu0 & Hs0).
  assert (Hm1 : member_at r0 u0 (rooms w) = Some i0)
    by (apply member_at_get; eauto).
  destruct (Huniq _ _ _ _ _ _ Hm1 Hs0 Hm Hs) as [-> ->].
  rewrite handle_disconnect_eq, Hscan.
  eexists _, _. split; [reflexivity|].
  apply (relays_dropped d q _ room_id user_id); try assumption.
  simpl rooms. apply member_at_removed.
Qed.

Lemma relay_after_disconnect_dropped_witness :
  exists w' out,
    handle_disconnect "c2" pair_world = Ok (w', out) /\
    handle_answer [("roomId", "R"); ("targetUserId", "u2");
                   ("answer", "sdp"); ("fromUserId", "u1")] "c1" w'
    = Ok (w', []).
Proof.
  destruct (relay_after_disconnect_dropped "c2" pair_world "R" "u2"
              (Member "bob" "c2")
              [("roomId", "R"); ("targetUserId", "u2");
               ("answer", "sdp"); ("fromUserId", "u1")] "c1"
              eq_refl eq_refl)
    as (w' & out & H & _ & Ha & _); try reflexivity.
  - intros r1 u1 i1 r2 u2 i2 H1 S1 H2 S2.
    member_cases H1; simpl in S1; try discriminate S1;
      member_cases H2; simpl in S2; try discriminate S2; auto.
  - exists w', out. auto.
Defined.

(** ** Malformed payloads *)

Lemma getitem_missing {V : Type} k (d : Dict.t V) :
  Dict.get k d = None -> getitem k d = KeyError k.
Proof. unfold getitem. intros ->. reflexivity. Qed.

Lemma getitem_cases {V : Type} k (d : Dict.t V) :
  (exists v, getitem k d = Ok v /\ Dict.get k d = Some v) \/
  (getitem k d = KeyError k /\ Dict.get k d = None).
Proof. unfold getitem. destruct (Dict.get k d); eauto. Qed.

(** X12. A join-room lacking roomId, userId or username, and a leave-room
    lacking roomId or userId, raise KeyError before anything is changed:
    the world stays as it is (no room is created), and nothing is
    emitted. *)
Theorem malformed_join_leave_ignored data s w :
  (Dict.get "roomId" data = None \/ Dict.get "userId" data = None \/
   Dict.get "username" data = None ->
   (exists k, handle_join_room data s w = KeyError k) /\
   step (s, JoinRoom data) w = (w, [])) /\
  (Dict.get "roomId" data = None \/ Dict.get "userId" data = None ->
   (exists k, handle_leave_room data s w = KeyError k) /\
   step (s, LeaveRoom data) w = (w, [])).
Proof.
  split; intros Hmiss.
  - assert (E : exists k, handle_join_room data s w = KeyError k).
    { unfold handle_join_room.
      destruct (getitem_cases "roomId" data) as [(v1 & -> & G1)|[-> _]];
        [cbn [bind]|cbn [bind]; eexists; reflexivity].
      destruct (getitem_cases "userId" data) as [(v2 & -> & G2)|[-> _]];
        [cbn [bind]|cbn [bind]; eexists; reflexivity].
      destruct (getitem_cases "username" data) as [(v3 & -> & G3)|[-> _]];
        [cbn [bind]|cbn [bind]; eexists; reflexivity].
      destruct Hmiss as [H|[H|H]]; congruence. }
    split; [exact E|]. destruct E as [k E].
    unfold step, dispatch. rewrite E. reflexivity.
  - assert (E : exists k, handle_leave_room data s w = KeyError k).
    { unfold handle_leave_room.
      destruct (getitem_cases "roomId" data) as [(v1 & -> & G1)|[-> _]];
        [cbn [bind]|cbn [bind]; eexists; reflexivity].
      destruct (getitem_cases "userId" data) as [(v2 & -> & G2)|[-> _]];
        [cbn [bind]|cbn [bind]; eexists; reflexivity].
      destruct Hmiss as [H|H]; congruence. }
    split; [exact E|]. destruct E as [k E].
    unfold step, dispatch. rewrite E. reflexivity.
Qed.

Lemma malformed_join_leave_ignored_witness :
  step ("c1", JoinRoom [("roomId", "new"); ("userId", "u1")]) init
  = (init, []) /\
  step ("c1", LeaveRoom [("userId", "u1")]) pair_world = (pair_world, []).
Proof.
  split.
  - apply (proj1 (malformed_join_leave_ignored
                    [("roomId", "new"); ("userId", "u1")] "c1" init)).
    right. right. reflexivity.
  - apply (proj2 (malformed_join_leave_ignored
                    [("userId", "u1")] "c1" pair_world)).
    left. reflexivity.
Defined.

(** X13. With a target that resolves, a relay handler raises KeyError
    exactly when a field it forwards is missing: offer needs offer,
    fromUserId and fromUsername; answer needs answer and fromUserId;
    ice-candidate needs candidate and fromUserId (fromUsername is not
    asked of the last two).  A relay that raises emits nothing. *)
Theorem malformed_relay_raises data s w room_id target target_sid :
  getitem "roomId" data = Ok room_id ->
  getitem "targetUserId" data = Ok target ->
  target_sid_of room_id target (rooms w) = Some target_sid ->
  ((exists k, handle_offer data s w = KeyError k) <->
   (Dict.get "offer" data = None \/ Dict.get "fromUserId" data = None \/
    Dict.get "fromUsername" data = None)) /\
  ((exists k, handle_answer data s w = KeyError k) <->
   (Dict.get "answer" data = None \/ Dict.get "fromUserId" data = None)) /\
  ((exists k, handle_ice_candidate data s w = KeyError k) <->
   (Dict.get "candidate" data = None \/ Dict.get "fromUserId" data = None)) /\
  (forall ev k,
      In ev [Offer data; Answer data; IceCandidate data] ->
      dispatch ev s w = KeyError k -> step (s, ev) w = (w, [])).
Proof.
  intros Hr Ht Hsid.
  unfold handle_offer, handle_answer, handle_ice_candidate.
  rewrite Hr, Ht. cbn [bind]. rewrite Hsid.
  split; [|split; [|split]].
  - destruct (getitem_cases "offer" data) as [(v1 & -> & G1)|[-> G1]];
      cbn [bind]; [|split; eauto].
    destruct (getitem_cases "fromUserId" data) as [(v2 & -> & G2)|[-> G2]];
      cbn [bind]; [|split; eauto].
    destruct (getitem_cases "fromUsername" data) as [(v3 & -> & G3)|[-> G3]];
      cbn [bind]; [|split; eauto].
    split; [intros [k H]; discriminate H|intros [H|[H|H]]; congruence].
  - destruct (getitem_cases "answer" data) as [(v1 & -> & G1)|[-> G1]];
      cbn [bind]; [|split; eauto].
    destruct (getitem_cases "fromUserId" data) as [(v2 & -> & G2)|[-> G2]];
      cbn [bind]; [|split; eauto].
    split; [intros [k H]; discriminate H|intros [H|H]; congruence].
  - destruct (getitem_cases "candidate" data) as [(v1 & -> & G1)|[-> G1]];
      cbn [bind]; [|split; eauto].
    destruct (getitem_cases "fromUserId" data) as [(v2 & -> & G2)|[-> G2]];
      cbn [bind]; [|split; eauto].
    split; [intros [k H]; discriminate H|intros [H|H]; congruence].
  - intros ev k _ H. unfold step. rewrite H. reflexivity.
Qed.

Lemma malformed_relay_raises_witness :
  (exists k,
      handle_offer [("roomId", "R"); ("targetUserId", "u2");
                    ("offer", "sdp"); ("fromUserId", "u1")] "c1" pair_world
      = KeyError k) /\
  ~ (exists k,
        handle_answer [("roomId", "R"); ("targetUserId", "u2");
                       ("answer", "sdp"); ("fromUserId", "u1")] "c1" pair_world
        = KeyError k).
Proof.
  split.
  - apply (proj1 (malformed_relay_raises
                    [("roomId", "R"); ("targetUserId", "u2");
                     ("offer", "sdp"); ("fromUserId", "u1")]
                    "c1" pair_world "R" "u2" "c2" eq_refl eq_refl eq_refl)).
    right. right. reflexivity.
  - intros E.
    apply (proj1 (proj2 (malformed_relay_raises
                    [("roomId", "R"); ("targetUserId", "u2");
                     ("answer", "sdp"); ("fromUserId", "u1")]
                    "c1" pair_world "R" "u2" "c2" eq_refl eq_refl eq_refl)))
      in E.
    destruct E as [E|E]; discriminate E.
Defined.

(** ** Read-only events *)

(** X14. Connect, offer, answer, ice-candidate and get-room-info events
    never change the Registry or the transport rooms, whatever their
    payload and whether the handler raises or not. *)
Theorem relay_and_query_read_only s w d :
  fst (step (s, Connect) w) = w /\
  fst (step (s, Offer d) w) = w /\
  fst (step (s, Answer d) w) = w /\
  fst (step (s, IceCandidate d) w) = w /\
  fst (step (s, GetRoomInfo d) w) = w.
Proof.
  split; [|split; [|split; [|split]]]; unfold step, dispatch.
  - reflexivity.
  - destruct (handle_offer d s w) as [[w' out]|k] eqn:E; [|reflexivity].
    exact (handle_offer_world _ _ _ _ _ E).
  - destruct (handle_answer d s w) as [[w' out]|k] eqn:E; [|reflexivity].
    exact (handle_answer_world _ _ _ _ _ E).
  - destruct (handle_ice_candidate d s w) as [[w' out]|k] eqn:E;
      [|reflexivity].
    exact (handle_ice_candidate_world _ _ _ _ _ E).
  - destruct (handle_get_room_info d s w) as [[w' out]|k] eqn:E;
      [|reflexivity].
    exact (handle_get_room_info_world _ _ _ _ _ E).
Qed.

(** X15. On a payload object whose roomId is a string or is missing,
    get-room-info does not raise, whatever the Registry: it answers with
    exactly one room-info message to the requester, echoing the roomId it
    was given ([None] when missing), and its userCount is the number of
    users it lists. *)
Theorem room_info_always_replies data s w :
  exists users,
    handle_get_room_info data s w
    = Ok (w, [Msg "room-info"
                  (JObj [("roomId",
                          match Dict.get "roomId" data with
                          | Some rid => JStr rid
                          | None => JNull
                          end);
                         ("userCount", JNum (List.length users));
                         ("users", JArr (map JStr users))])
                  (ToSid s)]).
Proof.
  unfold handle_get_room_info.
  destruct (Dict.get "roomId" data) as [rid|]; [|exists []; reflexivity].
  destruct (truthy (Some rid) && Dict.mem rid (rooms w)) eqn:E;
    [|exists []; reflexivity].
  apply andb_true_iff in E. destruct E as [_ E].
  unfold Dict.mem in E. unfold getitem.
  destruct (Dict.get rid (rooms w)) as [rm|]; [|discriminate].
  exists (map username (Dict.values rm)). cbn [bind].
  unfold room_info, emit, Dict.len, Dict.values.
  rewrite !length_map. reflexivity.
Qed.

(** ** Joining twice *)

Lemma sid_in_snoc s l : sid_in s (l ++ [s]) = true.
Proof.
  unfold sid_in. rewrite existsb_app. simpl.
  rewrite String.eqb_refl. apply orb_true_iff. right. reflexivity.
Qed.

Lemma join_room_twice s r T : join_room s r (join_room s r T) = join_room s r T.
Proof.
  unfold join_room at 1.
  assert (E : sid_in s (participants r (join_room s r T)) = true).
  { unfold join_room.
    destruct (sid_in s (participants r T)) eqn:E; [exact E|].
    unfold participants at 1. rewrite get_set, String.eqb_refl.
    apply sid_in_snoc. }
  rewrite E. reflexivity.
Qed.

(** X16. A join-room repeated by the same connection with the same payload
    right after one that was handled leaves the whole world as the first
    left it: the entry is overwritten with itself (or the room is now full
    and the request refused), and the connection is already in the
    transport room. *)
Theorem join_room_twice_same_world data s w w1 out1 :
  handle_join_room data s w = Ok (w1, out1) ->
  exists out2, handle_join_room data s w1 = Ok (w1, out2).
Proof.
  intros H.
  destruct (handle_join_room_fields _ _ _ _ H)
    as (room_id & user_id & uname & Hr & Hu & Hn).
  rewrite (handle_join_room_eq _ s w _ _ _ Hr Hu Hn) in H. cbv zeta in H.
  rewrite (handle_join_room_eq _ s w1 _ _ _ Hr Hu Hn). cbv zeta.
  destruct (MAX_ROOM_SIZE <=? Dict.len (room_before room_id (rooms w))) eqn:E;
    inversion H; subst w1 out1; clear H.
  - rewrite E. eauto.
  - simpl rooms. simpl sio_rooms.
    set (B := Dict.set user_id (Member uname s)
                (room_before room_id (rooms w))).
    assert (RB : room_before room_id (Dict.set room_id B (rooms w)) = B).
    { unfold room_before at 1. rewrite get_set, String.eqb_refl.
      reflexivity. }
    rewrite RB.
    assert (SB : Dict.set user_id (Member uname s) B = B).
    { apply set_get_id. unfold B.
      rewrite get_set, String.eqb_refl. reflexivity. }
    rewrite SB, set_set, join_room_twice.
    destruct (MAX_ROOM_SIZE <=? Dict.len B); eauto.
Qed.

Lemma join_room_twice_same_world_witness :
  exists w1 out1 out2,
    handle_join_room (join_data "R" "u3" "cat") "c3" pair_world
    = Ok (w1, out1) /\
    handle_join_room (join_data "R" "u3" "cat") "c3" w1 = Ok (w1, out2).
Proof.
  destruct (join_room_twice_same_world (join_data "R" "u3" "cat") "c3"
              pair_world _ _ eq_refl) as [out2 H].
  eexists _, _, out2. split; [reflexivity|exact H].
Defined.

(** ** Keys stay unique *)

Lemma NoDup_keys_set {V : Type} k (v : V) (d : Dict.t V) :
  NoDup (Dict.keys d) -> NoDup (Dict.keys (Dict.set k v d)).
Proof.
  intros H. destruct (Dict.get k d) as [v'|] eqn:E.
  - rewrite (keys_set_present _ _ _ _ E). exact H.
  - rewrite (set_absent _ _ _ E). unfold Dict.keys. rewrite map_app. simpl.
    apply NoDup_app; [exact H|repeat constructor; intros []|].
    intros a Ha [<-|[]].
    destruct (in_keys_get _ _ Ha) as [x Hx]. congruence.
Qed.

Lemma keys_del {V : Type} k (d : Dict.t V) :
  Dict.keys (Dict.del k d)
  = filter (fun x => negb (String.eqb k x)) (Dict.keys d).
Proof.
  unfold Dict.keys, Dict.del.
  induction d as [|[k0 v0] d IH]; simpl; [reflexivity|].
  destruct (String.eqb k k0); simpl; rewrite IH; reflexivity.
Qed.

Lemma NoDup_keys_del {V : Type} k (d : Dict.t V) :
  NoDup (Dict.keys d) -> NoDup (Dict.keys (Dict.del k d)).
Proof. intros H. rewrite keys_del. apply NoDup_filter, H. Qed.

Lemma registry_wf_set room_id (rm : room) (rs : registry) :
  registry_wf rs -> NoDup (Dict.keys rm) ->
  registry_wf (Dict.set room_id rm rs).
Proof.
  intros [Hout Hin] Hrm. split; [apply NoDup_keys_set, Hout|].
  intros r rm0. rewrite get_set.
  destruct (String.eqb r room_id); [intros E; inversion E; subst; exact Hrm|].
  apply Hin.
Qed.

Lemma registry_wf_del room_id (rs : registry) :
  registry_wf rs -> registry_wf (Dict.del room_id rs).
Proof.
  intros [Hout Hin]. split; [apply NoDup_keys_del, Hout|].
  intros r rm0. rewrite get_del.
  destruct (String.eqb r room_id); [discriminate|]. apply Hin.
Qed.

Lemma registry_wf_after_removal room_id user_id (rm : room) (rs : registry) :
  registry_wf rs -> Dict.get room_id rs = Some rm ->
  registry_wf (after_removal room_id user_id rm rs).
Proof.
  intros Hwf Hrm. unfold after_removal.
  assert (W : registry_wf (Dict.set room_id (Dict.del user_id rm) rs)).
  { apply registry_wf_set; [exact Hwf|].
    apply NoDup_keys_del. exact (proj2 Hwf _ _ Hrm). }
  destruct (Dict.is_empty (Dict.del user_id rm));
    [apply registry_wf_del|]; exact W.
Qed.

Lemma registry_wf_dispatch ev s w w' out :
  dispatch ev s w = Ok (w', out) ->
  registry_wf (rooms w) -> registry_wf (rooms w').
Proof.
  destruct ev; simpl; intros H Hw.
  - inversion H; subst; exact Hw.
  - rewrite handle_disconnect_eq in H.
    destruct (scan_rooms s (rooms w) (Dict.keys (rooms w)))
      as [[[[room_id rm] user_id] info]|] eqn:E;
      inversion H; subst; [|exact Hw].
    simpl. apply registry_wf_after_removal; [exact Hw|].
    apply (scan_rooms_sound _ _ _ _ _ _ _ E).
  - destruct (handle_join_room_fields _ _ _ _ H)
      as (room_id & user_id & uname & Hr & Hu & Hn).
    rewrite (handle_join_room_eq _ s w _ _ _ Hr Hu Hn) in H.
    cbv zeta in H.
    destruct (MAX_ROOM_SIZE <=? Dict.len (room_before room_id (rooms w)));
      inversion H; subst; [exact Hw|].
    simpl. apply registry_wf_set; [exact Hw|].
    apply NoDup_keys_set. unfold room_before.
    destruct (Dict.get room_id (rooms w)) as [rm|] eqn:E;
      [exact (proj2 Hw _ _ E)|constructor].
  - destruct (handle_leave_room_fields _ _ _ _ H)
      as (room_id & user_id & Hr & Hu).
    rewrite (handle_leave_room_eq _ s w _ _ Hr Hu) in H.
    destruct (Dict.get room_id (rooms w)) as [rm|] eqn:E;
      [|inversion H; subst; exact Hw].
    destruct (Dict.get user_id rm) as [info|];
      inversion H; subst; [|exact Hw].
    simpl. apply registry_wf_after_removal; assumption.
  - rewrite (handle_offer_world _ _ _ _ _ H); exact Hw.
  - rewrite (handle_answer_world _ _ _ _ _ H); exact Hw.
  - rewrite (handle_ice_candidate_world _ _ _ _ _ H); exact Hw.
  - rewrite (handle_get_room_info_world _ _ _ _ _ H); exact Hw.
Qed.

Lemma registry_wf_step e w :
  registry_wf (rooms w) -> registry_wf (rooms (fst (step e w))).
Proof.
  destruct e as [s ev]. intros Hw. unfold step.
  destruct (dispatch ev s w) as [[w' out]|k] eqn:E; [|exact Hw].
  pose proof (registry_wf_dispatch _ _ _ _ _ E Hw) as Hw'.
  destruct ev; exact Hw'.
Qed.

(** X17. Along every sequence of events from process start, no roomId
    occurs twice among the keys of the Registry and no userId twice among
    the keys of a room: a userId is in a room at most once, whatever is
    joined, left or disconnected. *)
Theorem keys_stay_unique evs :
  NoDup (Dict.keys (rooms (run evs init))) /\
  forall room_id rm,
    Dict.get room_id (rooms (run evs init)) = Some rm ->
    NoDup (Dict.keys rm).
Proof.
  assert (G : forall w, registry_wf (rooms w) ->
                        registry_wf (rooms (run evs w))).
  { induction evs as [|e evs IH]; intros w Hw; simpl; [exact Hw|].
    apply IH, registry_wf_step, Hw. }
  apply (G init). split; [constructor|].
  intros r rm H. discriminate H.
Qed.

(** ** Joins keep the transport rooms in step with the Registry *)

Lemma participants_join_room_incl s r r' c T :
  In c (participants r' T) -> In c (participants r' (join_room s r T)).
Proof.
  unfold join_room.
  destruct (sid_in s (participants r T)); [auto|].
  unfold participants at 2. rewrite get_set.
  destruct (String.eqb_spec r' r) as [->|N]; [|auto].
  intros H. apply in_or_app. left. exact H.
Qed.

Lemma participants_join_room_self s r T :
  In s (participants r (join_room s r T)).
Proof.
  unfold join_room.
  destruct (sid_in s (participants r T)) eqn:E.
  - unfold sid_in in E. apply existsb_exists in E.
    destruct E as (c & Hc & Ec). apply String.eqb_eq in Ec. subst c. exact Hc.
  - unfold participants at 1. rewrite get_set, String.eqb_refl.
    apply in_or_app. right. left. reflexivity.
Qed.

Lemma synced_dispatch ev s w w' out :
  is_departure ev = false ->
  dispatch ev s w = Ok (w', out) ->
  synced w -> synced w'.
Proof.
  destruct ev; simpl; intros Hd H Hw; try discriminate Hd.
  - inversion H; subst; exact Hw.
  - destruct (handle_join_room_fields _ _ _ _ H)
      as (room_id & user_id & uname & Hr & Hu & Hn).
    rewrite (handle_join_room_eq _ s w _ _ _ Hr Hu Hn) in H.
    cbv zeta in H.
    destruct (MAX_ROOM_SIZE <=? Dict.len (room_before room_id (rooms w)));
      inversion H; subst; [exact Hw|].
    intros r u info. simpl rooms. simpl sio_rooms.
    unfold member_at. rewrite get_set.
    destruct (String.eqb_spec r room_id) as [->|Nr].
    + rewrite get_set.
      destruct (String.eqb_spec u user_id) as [->|Nu].
      * intros E. inversion E; subst. simpl.
        apply participants_join_room_self.
      * intros E. apply participants_join_room_incl.
        apply (Hw room_id u info).
        rewrite member_at_room_before. exact E.
    + intros E. apply participants_join_room_incl.
      apply (Hw r u info). exact E.
  - rewrite (handle_offer_world _ _ _ _ _ H); exact Hw.
  - rewrite (handle_answer_world _ _ _ _ _ H); exact Hw.
  - rewrite (handle_ice_candidate_world _ _ _ _ _ H); exact Hw.
  - rewrite (handle_get_room_info_world _ _ _ _ _ H); exact Hw.
Qed.

Lemma synced_run evs :
  Forall (fun e => is_departure (snd e) = false) evs ->
  forall w, synced w -> synced (run evs w).
Proof.
  induction 1 as [|[s ev] evs Hd _ IH]; intros w Hw; simpl; [exact Hw|].
  apply IH. simpl in Hd.
  destruct (dispatch ev s w) as [[w' out]|k] eqn:E; [|exact Hw].
  pose proof (synced_dispatch _ _ _ _ _ Hd E Hw) as Hw'.
  destruct ev; try exact Hw'. discriminate Hd.
Qed.

(** X18. As long as no leave-room and no disconnect has occurred, every
    registered member's connection is in the transport group of its room;
    a join-room that goes through then delivers user-joined to the
    connection of every member who was in the room before, the joining
    connection excepted. *)
Theorem joins_reach_all_members evs data s room_id user_id uname :
  Forall (fun e => is_departure (snd e) = false) evs ->
  let w := run evs init in
  getitem "roomId" data = Ok room_id ->
  getitem "userId" data = Ok user_id ->
  getitem "username" data = Ok uname ->
  Dict.len (room_before room_id (rooms w)) < 6 ->
  synced w /\
  exists w' existing,
    handle_join_room data s w
    = Ok (w', [existing;
               Msg "user-joined"
                   (JObj [("userId", JStr user_id); ("username", JStr uname)])
                   (ToRoom room_id (Some s))]) /\
    forall u info,
      member_at room_id u (rooms w) = Some info ->
      sid info <> s ->
      In (sid info)
         (recipients (sio_rooms w')
            (Msg "user-joined"
                 (JObj [("userId", JStr user_id); ("username", JStr uname)])
                 (ToRoom room_id (Some s)))).
Proof.
  intros Hevs w Hr Hu Hn Hlen.
  assert (Hs : synced w).
  { apply synced_run; [exact Hevs|].
    intros r u info H. discriminate H. }
  split; [exact Hs|].
  rewrite (handle_join_room_eq _ s w _ _ _ Hr Hu Hn). cbv zeta.
  destruct (Nat.leb_spec MAX_ROOM_SIZE (Dict.len (room_before room_id (rooms w))))
    as [Hfull|_]; [unfold MAX_ROOM_SIZE in Hfull; lia|].
  eexists _, _. split; [reflexivity|].
  intros u info Hm Hne. unfold recipients. simpl.
  rewrite participants_join_room. apply in_drop_sid.
  split; [exact (Hs _ _ _ Hm)|exact Hne].
Qed.

Lemma joins_reach_all_members_witness :
  exists w' existing joined,
    handle_join_room (join_data "R" "u3" "cat") "c3"
      (run [("c1", JoinRoom (join_data "R" "u1" "ann"));
            ("c2", JoinRoom (join_data "R" "u2" "bob"))] init)
    = Ok (w', [existing; joined]) /\
    In "c1" (recipients (sio_rooms w') joined) /\
    In "c2" (recipients (sio_rooms w') joined).
Proof.
  destruct (joins_reach_all_members
              [("c1", JoinRoom (join_data "R" "u1" "ann"));
               ("c2", JoinRoom (join_data "R" "u2" "bob"))]
              (join_data "R" "u3" "cat") "c3" "R" "u3" "cat")
    as (_ & w' & existing & H & Hall); try reflexivity.
  - repeat constructor.
  - simpl. lia.
  - eexists w', existing, _. split; [exact H|]. split.
    + apply (Hall "u1" (Member "ann" "c1")); [reflexivity|discriminate].
    + apply (Hall "u2" (Member "bob" "c2")); [reflexivity|discriminate].
Defined.

(** ** The snapshot sent to a joiner *)

Lemma get_In {V : Type} k (v : V) (d : Dict.t V) :
  Dict.get k d = Some v -> In (k, v) d.
Proof.
  induction d as [|[k0 v0] d IH]; simpl; [discriminate|].
  destruct (String.eqb_spec k k0) as [->|N].
  - intros H. inversion H. left. reflexivity.
  - intros H. right. apply IH, H.
Qed.

(** X19. The existing-users list is taken before the joiner is inserted:
    a userId new to the room never finds itself in the list it receives,
    while a userId that was already in the room (joining again) finds its
    own previous entry, previous username included. *)
Theorem snapshot_and_own_entry data s w room_id user_id uname :
  getitem "roomId" data = Ok room_id ->
  getitem "userId" data = Ok user_id ->
  getitem "username" data = Ok uname ->
  Dict.len (room_before room_id (rooms w)) < 6 ->
  exists w' users joined,
    handle_join_room data s w
    = Ok (w', [Msg "existing-users" (JObj [("users", JArr users)]) (ToSid s);
               joined]) /\
    List.length users = Dict.len (room_before room_id (rooms w)) /\
    (member_at room_id user_id (rooms w) = None ->
     forall n, ~ In (JObj [("userId", JStr user_id); ("username", JStr n)])
                    users) /\
    (forall old,
        member_at room_id user_id (rooms w) = Some old ->
        In (JObj [("userId", JStr user_id); ("username", JStr (username old))])
           users).
Proof.
  intros Hr Hu Hn Hlen.
  rewrite (handle_join_room_eq _ s w _ _ _ Hr Hu Hn). cbv zeta.
  destruct (Nat.leb_spec MAX_ROOM_SIZE (Dict.len (room_before room_id (rooms w))))
    as [Hfull|_]; [unfold MAX_ROOM_SIZE in Hfull; lia|].
  eexists _, _, _. split; [reflexivity|].
  unfold Dict.items. split; [apply length_map|]. split.
  - intros Hnew n Hin. rewrite member_at_room_before in Hnew.
    apply in_map_iff in Hin. destruct Hin as ([k v] & E & Hin).
    unfold user_entry in E. simpl in E. inversion E; subst k.
    assert (K : In user_id (Dict.keys (room_before room_id (rooms w)))).
    { unfold Dict.keys. apply in_map_iff. exists (user_id, v). auto. }
    destruct (in_keys_get _ _ K) as [x Hx]. congruence.
  - intros old Hold. rewrite member_at_room_before in Hold.
    apply in_map_iff. exists (user_id, old).
    split; [reflexivity|apply get_In, Hold].
Qed.

Lemma snapshot_and_own_entry_witness :
  exists w' users joined,
    handle_join_room (join_data "R" "u2" "rob") "c7" pair_world
    = Ok (w', [Msg "existing-users" (JObj [("users", JArr users)])
                   (ToSid "c7");
               joined]) /\
    In (JObj [("userId", JStr "u2"); ("username", JStr "bob")]) users.
Proof.
  destruct (snapshot_and_own_entry (join_data "R" "u2" "rob") "c7" pair_world
              "R" "u2" "rob" eq_refl eq_refl eq_refl)
    as (w' & users & joined & H & _ & _ & Hown).
  - simpl. lia.
  - exists w', users, joined. split; [exact H|].
    apply (Hown (Member "bob" "c2")). reflexivity.
Defined.

(** ** A join-room with an unhashable userId, on a room that exists *)

(** X21. A join-room whose userId is a JSON array or object, addressed to
    a room that exists, never changes the world: with 6 or more members in
    the room it is answered by room-full like any other join, the
    [TypeError] not being reached; with fewer it raises [TypeError] before
    anything is emitted, no member being added and the connection not
    entering the transport room. *)
Theorem unhashable_join_on_existing_room room_id user_id uname s w rm :
  Dict.get room_id (rooms w) = Some rm ->
  handle_join_room_unhashable_user room_id user_id uname s w
  = (if 6 <=? Dict.len rm
     then Returned w [Msg "room-full"
                          (JObj [("message",
                                  JStr "Room is full (max 6 users)")])
                          (ToSid s)]
     else RaisedTypeError w []).
Proof.
  intros Hrm. unfold handle_join_room_unhashable_user, Dict.mem.
  rewrite Hrm. simpl. rewrite Hrm, world_eta. reflexivity.
Qed.

Lemma unhashable_join_on_existing_room_witness :
  handle_join_room_unhashable_user "R" (UDict []) "x" "c9" full_world
  = Returned full_world [room_full "c9"] /\
  handle_join_room_unhashable_user "R" (UDict []) "x" "c9" pair_world
  = RaisedTypeError pair_world [].
Proof.
  split.
  - apply (unhashable_join_on_existing_room "R" (UDict []) "x" "c9"
             full_world full_room). reflexivity.
  - apply (unhashable_join_on_existing_room "R" (UDict []) "x" "c9"
             pair_world pair_room). reflexivity.
Defined.
